(** * Rank card rendering (discordLevelingSystem/rank_card.py)

    A shallow embedding of [RankCard._convert_number], [RankCard._image] and
    [RankCard.create].

    - Python [int] is [Z]; Python [float] is IEEE 754 binary64, taken from the
      specification of floating-point arithmetic that ships with the prover
      ([SpecFloat], precision 53, [emax] 1024).
    - [create] reads the network and the file system, reassigns the fields of
      the card and may raise: it is written in a state-and-exception monad
      over the card and a log of the I/O it performed.
    - Pillow images are kept symbolically, as the tree of Pillow calls that
      built them; what Pillow computes from file contents (decoding, text
      measurement, PNG encoding) is a field of the environment. *)

From Stdlib Require Import ZArith QArith Lia Bool List String Ascii.
From Stdlib Require Import DecimalString.
From Stdlib Require Import Floats.SpecFloat.
Import ListNotations.

Local Open Scope string_scope.
Local Open Scope Z_scope.

(* ================================================================== *)
(** ** Python floats *)

Module PyFloat.

Definition prec : Z := 53.
Definition emax : Z := 1024.

Definition float := spec_float.

(** Exceptions of the arithmetic. *)
Inductive arith_error := ZeroDivision | Overflow.

(** [a / b] on two [int]s: [ZeroDivisionError] when [b] is zero, else the
    binary64 nearest to the exact quotient (ties to even), and
    [OverflowError] when that is not finite.  The operands enter the
    division as the exact values [|a| * 2^0] and [|b| * 2^0], so the
    quotient is rounded once. *)
Definition true_divide (a b : Z) : arith_error + float :=
  match b with
  | Z0 => inl ZeroDivision
  | _ =>
      let s := xorb (a <? 0) (b <? 0) in
      match a with
      | Z0 => inr (S754_zero s)
      | _ =>
          match SFdiv prec emax
                  (S754_finite (a <? 0) (Z.to_pos (Z.abs a)) 0)
                  (S754_finite (b <? 0) (Z.to_pos (Z.abs b)) 0) with
          | S754_infinity _ => inl Overflow
          | f => inr f
          end
      end
  end.

(** [float(z)] for the [int] literals of mixed arithmetic and comparisons
    ([420], [50], [20], [125]): exact below [2^53]. *)
Definition of_int (z : Z) : float := binary_normalize prec emax z 0 false.

Definition mul : float -> float -> float := SFmul prec emax.
Definition add : float -> float -> float := SFadd prec emax.
Definition leb : float -> float -> bool := SFleb.

(** The exact value of a zero or finite float. *)
Definition to_Q (x : float) : option Q :=
  match x with
  | S754_zero _ => Some 0%Q
  | S754_finite s m e =>
      Some (inject_Z (if s then Zneg m else Zpos m) * Qpower 2 e)%Q
  | _ => None
  end.

(** The integer nearest to [m * 2^e * 10^digits], ties to even. *)
Definition scaled_round (digits : Z) (m : positive) (e : Z) : Z :=
  let n := Zpos m * 10 ^ digits in
  match e with
  | Zneg p =>
      let d := 2 ^ Zpos p in
      let q := n / d in
      let r := n mod d in
      match 2 * r ?= d with
      | Lt => q
      | Gt => q + 1
      | Eq => if Z.even q then q else q + 1
      end
  | _ => n * 2 ^ e
  end.

End PyFloat.

(* ================================================================== *)
(** ** Python strings of numbers *)

(** [str(n)] for an [int]. *)
Definition str_int (n : Z) : string := NilZero.string_of_int (Z.to_int n).

(** [k] in decimal, left-padded with zeros to at least [width] characters
    ([k] is not negative). *)
Fixpoint zero_pad (width : nat) (s : string) : string :=
  if (String.length s <? width)%nat then
    match width with
    | O => s
    | S w => "0" ++ zero_pad w s
    end
  else s.

(** [f"{x:.3f}"]: three digits after the point, correctly rounded from the
    exact binary value. *)
Definition format_3f (x : PyFloat.float) : string :=
  match x with
  | S754_nan => "nan"
  | S754_infinity s => if s then "-inf" else "inf"
  | S754_zero s => (if s then "-" else EmptyString) ++ "0.000"
  | S754_finite s m e =>
      let k := PyFloat.scaled_round 3 m e in
      (if s then "-" else EmptyString) ++ str_int (k / 1000) ++ "." ++
        zero_pad 3 (str_int (k mod 1000))
  end.

(* ================================================================== *)
(** ** Exceptions *)

Inductive exn :=
| InvalidImageType (msg : string)
| InvalidImageUrl (msg : string)
| AttributeError (msg : string)
| ValueError (msg : string)
| ZeroDivisionError
| OverflowError
| ClientError
| OSError (msg : string).

Definition of_arith {A} (r : PyFloat.arith_error + A) : exn + A :=
  match r with
  | inl PyFloat.ZeroDivision => inl ZeroDivisionError
  | inl PyFloat.Overflow => inl OverflowError
  | inr a => inr a
  end.

(* ================================================================== *)
(** ** Values, images and the environment *)

Definition bytes := list Byte.byte.

(** A Python number: the coordinates handed to Pillow are [int]s or
    [float]s. *)
Inductive num :=
| NInt (z : Z)
| NFloat (x : PyFloat.float).

Inductive color :=
| ColorName (name : string)
| ColorRGB (r g b : Z)
| ColorRGBA (r g b a : Z).

(** [ImageFont.truetype(file, size)]. *)
Record font := { font_file : string; font_size : Z }.

(** A Pillow image, as the calls that produced it.  Methods that mutate
    their receiver ([paste], [ImageDraw] calls) wrap the receiver. *)
Inductive image :=
| Opened (data : bytes) (mode : string) (size : Z * Z)
| New (mode : string) (size : Z * Z) (fill : option color)
| Resize (im : image) (size : Z * Z)
| Convert (im : image) (mode : string)
| Band (im : image) (index : nat)
| Paste (im source : image) (box : option (Z * Z))
| PasteMask (im source : image) (box : option (Z * Z)) (mask : image)
| Text (im : image) (xy : num * num) (text : string) (f : font)
       (fill : color) (stroke_width : Z) (stroke_fill : color)
| RoundedRectangle (im : image) (draw_mode : string)
       (xy : num * num * num * num) (radius : Z) (fill : color).

(** [im.size]. *)
Fixpoint size (im : image) : Z * Z :=
  match im with
  | Opened _ _ sz => sz
  | New _ sz _ => sz
  | Resize _ sz => sz
  | Convert im _ => size im
  | Band im _ => size im
  | Paste im _ _ => size im
  | PasteMask im _ _ _ => size im
  | Text im _ _ _ _ _ _ => size im
  | RoundedRectangle im _ _ _ _ => size im
  end.

(** An [IOBase] instance, by what [create] asks of it: [seekable()],
    [readable()], the attribute [mode] (absent on [BytesIO] and [StringIO],
    present on what [open] returns) and the content. *)
Record buffer := {
  buf_repr : string;
  buf_class : string;
  buf_seekable : bool;
  buf_readable : bool;
  buf_mode : option string;
  buf_data : bytes
}.

(** What the fields [background] and [avatar] can hold at run time. *)
Inductive value :=
| VNone
| VInt (z : Z)
| VStr (s : string)
| VPath (p : string)
| VBuffer (b : buffer)
| VImage (im : image).

(** [str(type(v))]. *)
Definition type_repr (v : value) : string :=
  match v with
  | VNone => "<class 'NoneType'>"
  | VInt _ => "<class 'int'>"
  | VStr _ => "<class 'str'>"
  | VPath _ => "<class 'pathlib.PosixPath'>"
  | VBuffer b => "<class '" ++ buf_class b ++ "'>"
  | VImage _ => "<class 'PIL.Image.Image'>"
  end.

(** [io.BytesIO]: content and position. *)
Record BytesIO := { bio_data : bytes; bio_pos : Z }.

(** What a call does to the world outside, in order: the aiohttp session
    and its request, the files and fonts opened, the contents handed to
    [Image.open], and what is printed. *)
Inductive event :=
| SessionOpen
| SessionClose
| HttpGet (url : string)
| ResponseRead (url : string)
| FileOpen (path : string) (mode : string)
| ImageOpen (data : bytes)
| FontLoad (file : string) (size : Z)
| Print (msg : string).

(** The world around one call, and what Pillow computes from contents.
    - [module_dir]: [str(Path(__file__).parent)], where the assets are;
    - [http_get url]: the status and the body that the server answers, or
      nothing when the request itself fails;
    - [read_file path]: the content of the file, or nothing when it cannot
      be opened;
    - [identify data]: the mode and the size that [Image.open] finds in the
      content, or nothing when it is not an image;
    - [textsize font text]: what [draw.textsize] measures;
    - [alpha_paste_error avatar]: the exception, if any, that the [paste]
      of line 225 raises and the [except] of line 226 catches;
    - [png_encode im]: the bytes that [im.save(fp, 'PNG')] writes. *)
Record Env := {
  module_dir : string;
  http_get : string -> option (Z * bytes);
  read_file : string -> option bytes;
  identify : bytes -> option (string * (Z * Z));
  textsize : font -> string -> Z * Z;
  alpha_paste_error : image -> option string;
  png_encode : image -> bytes
}.

(* ================================================================== *)
(** ** [Settings] and [RankCard] *)

Record Settings := {
  settings_background : value;
  settings_bar_color : string;
  settings_text_color : string
}.

Record RankCard := {
  background : value;
  bar_color : string;
  text_color : string;
  avatar : value;
  level : Z;
  username : string;
  current_xp : Z;
  max_xp : Z
}.

(** [RankCard.__init__]. *)
Definition __init__ (settings : Settings) (avatar : value) (level : Z)
    (username : string) (current_xp max_xp : Z) : RankCard :=
  {| background := settings_background settings;
     bar_color := settings_bar_color settings;
     text_color := settings_text_color settings;
     avatar := avatar;
     level := level;
     username := username;
     current_xp := current_xp;
     max_xp := max_xp |}.

Definition set_background (v : value) (c : RankCard) : RankCard :=
  {| background := v; bar_color := bar_color c; text_color := text_color c;
     avatar := avatar c; level := level c; username := username c;
     current_xp := current_xp c; max_xp := max_xp c |}.

Definition set_avatar (v : value) (c : RankCard) : RankCard :=
  {| background := background c; bar_color := bar_color c;
     text_color := text_color c; avatar := v; level := level c;
     username := username c; current_xp := current_xp c;
     max_xp := max_xp c |}.

(* ================================================================== *)
(** ** [RankCard._convert_number] *)

Definition _convert_number (number : Z) : exn + string :=
  if number >=? 1000000 then
    match of_arith (PyFloat.true_divide number 1000000) with
    | inl e => inl e
    | inr q => inr (format_3f q ++ "M")
    end
  else if number >=? 1000 then
    match of_arith (PyFloat.true_divide number 1000) with
    | inl e => inl e
    | inr q => inr (format_3f q ++ "K")
    end
  else inr (str_int number).

(* ================================================================== *)
(** ** The monad of [create]: the card, the log, and exceptions *)

Record state := { card : RankCard; log : list event }.

Definition M (A : Type) : Type := state -> (exn + A) * state.

Definition ret {A} (a : A) : M A := fun st => (inr a, st).

Definition raise {A} (e : exn) : M A := fun st => (inl e, st).

Definition bind {A B} (m : M A) (k : A -> M B) : M B :=
  fun st =>
    match m st with
    | (inl e, st') => (inl e, st')
    | (inr a, st') => k a st'
    end.

Notation "x <- m ;; k" := (bind m (fun x => k))
  (at level 61, m at next level, right associativity).
Notation "m ;; k" := (bind m (fun _ => k))
  (at level 61, right associativity).

(** [try: m finally: h]. *)
Definition finally {A} (m : M A) (h : M unit) : M A :=
  fun st =>
    match m st with
    | (r, st') =>
        match h st' with
        | (inl e, st'') => (inl e, st'')
        | (inr _, st'') => (r, st'')
        end
    end.

Definition lift {A} (r : exn + A) : M A :=
  match r with
  | inl e => raise e
  | inr a => ret a
  end.

Definition emit (ev : event) : M unit :=
  fun st => (inr tt, {| card := card st; log := (log st ++ [ev])%list |}).

Definition get {A} (field : RankCard -> A) : M A :=
  fun st => (inr (field (card st)), st).

Definition modify (f : RankCard -> RankCard) : M unit :=
  fun st => (inr tt, {| card := f (card st); log := log st |}).

(* ================================================================== *)
(** ** Pillow and aiohttp calls *)

Definition size_eqb (a b : Z * Z) : bool :=
  (fst a =? fst b) && (snd a =? snd b).

(** [im.paste(source, box, mask)]: Pillow refuses a mask whose size is not
    that of the pasted image. *)
Definition paste_mask (im source : image) (box : option (Z * Z))
    (mask : image) : exn + image :=
  if size_eqb (size mask) (size source)
  then inr (PasteMask im source box mask)
  else inl (ValueError "images do not match").

(** [(327/2) + offset], the vertical position of a line of text. *)
Definition text_y (offset : Z) : exn + num :=
  match of_arith (PyFloat.true_divide 327 2) with
  | inl e => inl e
  | inr h => inr (NFloat (PyFloat.add h (PyFloat.of_int offset)))
  end.

(** Lines 207-209: the filled width of the bar. *)
Definition bar_exp (current_xp max_xp : Z) : exn + num :=
  match of_arith (PyFloat.true_divide current_xp max_xp) with
  | inl e => inl e
  | inr q =>
      let bar_exp := PyFloat.mul q (PyFloat.of_int 420) in
      if PyFloat.leb bar_exp (PyFloat.of_int 50)
      then inr (NInt 50)
      else inr (NFloat bar_exp)
  end.

(** The test of line 174, with the short circuit of [and]. *)
Definition buffer_check (b : buffer) : M bool :=
  if buf_seekable b then
    if buf_readable b then
      match buf_mode b with
      | None =>
          raise (AttributeError
                   ("'" ++ buf_class b ++ "' object has no attribute 'mode'"))
      | Some m => ret (String.eqb m "rb")
      end
    else ret false
  else ret false.

(** The state in which a call starts: the card, and nothing logged. *)
Definition start (c : RankCard) : state := {| card := c; log := [] |}.

Section WithEnv.

Variable env : Env.

(** [Image.open(fp)] on the content of an open binary stream. *)
Definition image_open (data : bytes) : M image :=
  emit (ImageOpen data) ;;
  match identify env data with
  | None => raise (OSError "cannot identify image file")
  | Some (mode, sz) => ret (Opened data mode sz)
  end.

(** [Image.open(open(path, "rb"))], and [Image.open(path)], which opens
    the file the same way. *)
Definition image_open_file (path : string) : M image :=
  emit (FileOpen path "rb") ;;
  match read_file env path with
  | None => raise (OSError ("No such file or directory: " ++ path))
  | Some data => image_open data
  end.

(** [ImageFont.truetype(file, size)]. *)
Definition truetype (file : string) (sz : Z) : M font :=
  emit (FontLoad file sz) ;;
  match read_file env file with
  | None => raise (OSError "cannot open resource")
  | Some _ => ret {| font_file := file; font_size := sz |}
  end.

(** [RankCard._image]. *)
Definition _image (url : string) : M image :=
  emit SessionOpen ;;
  finally
    (emit (HttpGet url) ;;
     match http_get env url with
     | None => raise ClientError
     | Some (status, body) =>
         if negb (status =? 200) then
           raise (InvalidImageUrl ("Invalid image url: " ++ url))
         else
           emit (ResponseRead url) ;;
           image_open body
     end)
    (emit SessionClose).

(** Lines 173-183. *)
Definition resolve_background : M image :=
  bg <- get background ;;
  match bg with
  | VBuffer b =>
      ok <- buffer_check b ;;
      if negb ok then
        raise (InvalidImageType
                 ("File buffer " ++ buf_repr b ++
                  " must be seekable and readable and in binary mode"))
      else
        im <- image_open (buf_data b) ;;
        modify (set_background (VImage im)) ;;
        ret im
  | VStr s =>
      if String.prefix "http" s then
        im <- _image s ;;
        modify (set_background (VImage im)) ;;
        ret im
      else
        im <- image_open_file s ;;
        modify (set_background (VImage im)) ;;
        ret im
  | _ =>
      raise (InvalidImageType
               ("background must be a path or url or a file buffer, not " ++
                type_repr bg))
  end.

(** Lines 185-191. *)
Definition resolve_avatar : M image :=
  av <- get avatar ;;
  match av with
  | VStr s =>
      if String.prefix "http" s then
        im <- _image s ;;
        modify (set_avatar (VImage im)) ;;
        ret im
      else
        im <- image_open_file s ;;
        modify (set_avatar (VImage im)) ;;
        ret im
  | _ =>
      raise (InvalidImageType ("avatar must be a url, not " ++ type_repr av))
  end.

(** An in-place change of the image held by [self.background]. *)
Definition set_bg (im : image) : M unit :=
  modify (set_background (VImage im)).

(** Lines 193-243; the numbers in the margin are the lines of the source.
    [bg] is the image that [self.background] holds: every call that changes
    it in place is followed by [set_bg], so that the card is as Python
    leaves it also when a later line raises. *)
Definition compose (bg0 av0 : image) : M BytesIO :=
  let path := module_dir env in                                   (* 171 *)
  let av := Resize av0 (170, 170) in                              (* 193 *)
  modify (set_avatar (VImage av)) ;;
  overlay <- image_open_file (path ++ "/assets/overlay1.png") ;;  (* 195 *)
  let background := New "RGBA" (size overlay) None in             (* 196 *)
  let backgroundover := Resize bg0 (638, 159) in                  (* 197 *)
  let background := Paste background backgroundover (Some (0, 0)) in
                                                                  (* 198 *)
  let bg := Resize background (size overlay) in                   (* 200 *)
  set_bg bg ;;
  bg <- lift (paste_mask bg overlay (Some (0, 0)) overlay) ;;     (* 201 *)
  set_bg bg ;;
  card_font <- truetype (path ++ "/assets/levelfont.otf") 40 ;;   (* 203 *)
  y <- lift (text_y 20) ;;                                        (* 206 *)
  name <- get username ;;
  fill <- get text_color ;;
  let bg := Text bg (NInt 205, y) name card_font (ColorName fill) 1
              (ColorRGB 0 0 0) in
  set_bg bg ;;
  cur <- get current_xp ;;
  mx <- get max_xp ;;
  bar <- lift (bar_exp cur mx) ;;                             (* 207-209 *)
  current_xp <- lift (_convert_number cur) ;;                     (* 211 *)
  max_xp <- lift (_convert_number mx) ;;                          (* 213 *)
  card_font <- truetype (path ++ "/assets/levelfont.otf") 30 ;;   (* 216 *)
  y <- lift (text_y 125) ;;                                       (* 217 *)
  lvl <- get level ;;
  lvl <- lift (_convert_number lvl) ;;
  let bg := Text bg (NInt 197, y) ("LEVEL - " ++ lvl) card_font
              (ColorName fill) 1 (ColorRGB 0 0 0) in
  set_bg bg ;;
  let w := fst (textsize env card_font (current_xp ++ "/" ++ max_xp)) in
                                                                  (* 219 *)
  y <- lift (text_y 125) ;;                                       (* 220 *)
  let bg := Text bg (NInt (638 - w - 50), y) (current_xp ++ "/" ++ max_xp)
              card_font (ColorName fill) 1 (ColorRGB 0 0 0) in
  set_bg bg ;;
  mask_im <- image_open_file (path ++ "/assets/mask_circle.jpg") ;;
                                                                  (* 222 *)
  let mask_im := Resize (Convert mask_im "L") (170, 170) in
  let new := New "RGB" (size av) (Some (ColorRGB 0 0 0)) in       (* 223 *)
  new <- match alpha_paste_error env av with                  (* 224-228 *)
         | None => ret (PasteMask new av None (Band (Convert av "RGBA") 3))
         | Some msg => emit (Print msg) ;; ret (Paste new av (Some (0, 0)))
         end ;;
  bg <- lift (paste_mask bg new (Some (13, 65)) mask_im) ;;       (* 229 *)
  set_bg bg ;;
  let im := New "RGB" (490, 51) (Some (ColorRGB 0 0 0)) in        (* 231 *)
  let im := RoundedRectangle im "RGBA" (NInt 0, NInt 0, NInt 420, NInt 50)
              30 (ColorRGBA 255 255 255 50) in                    (* 233 *)
  bcol <- get bar_color ;;
  let im := RoundedRectangle im "RGBA" (NInt 0, NInt 0, bar, NInt 50)
              30 (ColorName bcol) in                              (* 234 *)
  let bg := Paste bg im (Some (190, 235)) in                      (* 235 *)
  set_bg bg ;;
  let new := New "RGBA" (size bg) None in                         (* 236 *)
  curved <- image_open_file (path ++ "/assets/curvedoverlay.png") ;;
  new <- lift (paste_mask new bg (Some (0, 0)) (Convert curved "L")) ;;
                                                                  (* 237 *)
  let bg := Resize new (505, 259) in                              (* 238 *)
  set_bg bg ;;
  let image := {| bio_data := []; bio_pos := 0 |} in              (* 240 *)
  let image := {| bio_data := (bio_data image ++ png_encode env bg)%list;
                  bio_pos := bio_pos image +
                             Z.of_nat (List.length (png_encode env bg)) |} in
                                                                  (* 241 *)
  let image := {| bio_data := bio_data image; bio_pos := 0 |} in  (* 242 *)
  ret image.                                                      (* 243 *)

(** [RankCard.create]. *)
Definition create : M BytesIO :=
  bg <- resolve_background ;;
  av <- resolve_avatar ;;
  compose bg av.

(** [await card.create()] on a card, from an empty log. *)
Definition run_create (c : RankCard) : (exn + BytesIO) * state :=
  create (start c).

End WithEnv.

(* ================================================================== *)
(** ** What was drawn *)

(** The [draw.text] calls that went into an image, oldest first, each with
    its position, its string and its font. *)
Fixpoint texts (im : image) : list (num * num * string * font) :=
  match im with
  | Opened _ _ _ => []
  | New _ _ _ => []
  | Resize im _ => texts im
  | Convert im _ => texts im
  | Band im _ => texts im
  | Paste im source _ => texts im ++ texts source
  | PasteMask im source _ _ => texts im ++ texts source
  | Text im xy text f _ _ _ => texts im ++ [(xy, text, f)]
  | RoundedRectangle im _ _ _ _ => texts im
  end%list.

(** The [rounded_rectangle] calls that went into an image, oldest first. *)
Fixpoint rectangles (im : image) : list (num * num * num * num * color) :=
  match im with
  | Opened _ _ _ => []
  | New _ _ _ => []
  | Resize im _ => rectangles im
  | Convert im _ => rectangles im
  | Band im _ => rectangles im
  | Paste im source _ => rectangles im ++ rectangles source
  | PasteMask im source _ _ => rectangles im ++ rectangles source
  | Text im _ _ _ _ _ _ => rectangles im
  | RoundedRectangle im _ xy _ fill => rectangles im ++ [(xy, fill)]
  end%list.

(** Network and file I/O, as opposed to work on memory. *)
Definition is_io (ev : event) : bool :=
  match ev with
  | SessionOpen | SessionClose | HttpGet _ | ResponseRead _
  | FileOpen _ _ | FontLoad _ _ => true
  | ImageOpen _ | Print _ => false
  end.

(** Python's [<=] on two numbers of this program. *)
Definition num_float (v : num) : PyFloat.float :=
  match v with
  | NInt z => PyFloat.of_int z
  | NFloat x => x
  end.

Definition num_leb (a b : num) : bool :=
  PyFloat.leb (num_float a) (num_float b).

(** The font of the card at a given size. *)
Definition levelfont (env : Env) (sz : Z) : font :=
  {| font_file := module_dir env ++ "/assets/levelfont.otf"; font_size := sz |}.

(* ================================================================== *)
(** ** A sample environment *)

Module Sample.

Import Byte.

Definition png : bytes := [x89; x50; x4e; x47].

Definition env : Env := {|
  module_dir := "/site-packages/discordLevelingSystem";
  http_get := fun url =>
    if String.eqb url "https://cdn.example/avatar.png"
    then Some (200, png)
    else Some (404, []);
  read_file := fun path =>
    if String.eqb path "missing.png" then None else Some png;
  identify := fun data =>
    match data with
    | [] => None
    | _ => Some ("RGBA", (638, 327))
    end;
  textsize := fun f s => (Z.of_nat (String.length s) * font_size f / 2,
                          font_size f);
  alpha_paste_error := fun _ => None;
  png_encode := fun _ => png
|}.

Definition settings : Settings := {|
  settings_background := VStr "background.jpg";
  settings_bar_color := "white";
  settings_text_color := "white"
|}.

Definition rank_card : RankCard :=
  __init__ settings (VStr "https://cdn.example/avatar.png") 5 "Alice"
    250 1000.

Definition string_io : buffer := {|
  buf_repr := "<_io.StringIO object at 0x7f3a5c0b1e50>";
  buf_class := "_io.StringIO";
  buf_seekable := true;
  buf_readable := true;
  buf_mode := None;
  buf_data := png
|}.

Definition text_file : buffer := {|
  buf_repr := "<_io.TextIOWrapper name='bg.png' mode='r' encoding='UTF-8'>";
  buf_class := "_io.TextIOWrapper";
  buf_seekable := true;
  buf_readable := true;
  buf_mode := Some "r";
  buf_data := png
|}.

(** A card whose background is a URL and whose avatar is an [int]. *)
Definition int_avatar_card : RankCard :=
  __init__
    {| settings_background := VStr "https://cdn.example/avatar.png";
       settings_bar_color := "white";
       settings_text_color := "white" |}
    (VInt 7) 5 "Alice" 250 1000.

(** A card whose background is an [io.StringIO]. *)
Definition string_io_card : RankCard :=
  __init__
    {| settings_background := VBuffer string_io;
       settings_bar_color := "white";
       settings_text_color := "white" |}
    (VStr "https://cdn.example/avatar.png") 5 "Alice" 250 1000.

(** A card whose background is a file opened with [open("bg.png")]. *)
Definition text_file_card : RankCard :=
  __init__
    {| settings_background := VBuffer text_file;
       settings_bar_color := "white";
       settings_text_color := "white" |}
    (VStr "https://cdn.example/avatar.png") 5 "Alice" 250 1000.

(** A card whose avatar is a local path. *)
Definition path_avatar_card : RankCard :=
  __init__ settings (VStr "avatars/alice.png") 5 "Alice" 250 1000.

End Sample.

(* ================================================================== *)
(** ** [Settings.to_dict] and the call of [Settings] on the keywords of a dict *)

(** [Settings.__init__], with the defaults of its signature. *)
Definition Settings__init__ (background : value)
    (bar_color text_color : option string) : Settings :=
  {| settings_background := background;
     settings_bar_color :=
       match bar_color with Some c => c | None => "white" end;
     settings_text_color :=
       match text_color with Some c => c | None => "white" end |}.

(** [Settings.__slots__]. *)
Definition settings_slots : list string :=
  ["background"; "bar_color"; "text_color"].

(** [getattr(settings, key)]. *)
Definition settings_getattr (s : Settings) (key : string) : exn + value :=
  if String.eqb key "background" then inr (settings_background s)
  else if String.eqb key "bar_color" then inr (VStr (settings_bar_color s))
  else if String.eqb key "text_color" then inr (VStr (settings_text_color s))
  else inl (AttributeError
              ("'Settings' object has no attribute '" ++ key ++ "'")).

(** [{key : f(key) for key in keys}]: a [dict], in insertion order. *)
Fixpoint dict_of_keys (f : string -> exn + value) (keys : list string)
  : exn + list (string * value) :=
  match keys with
  | [] => inr []
  | key :: rest =>
      match f key with
      | inl e => inl e
      | inr v =>
          match dict_of_keys f rest with
          | inl e => inl e
          | inr d => inr ((key, v) :: d)
          end
      end
  end%list.

(** [Settings.to_dict]. *)
Definition to_dict (s : Settings) : exn + list (string * value) :=
  dict_of_keys (settings_getattr s) settings_slots.

(** [d.get(key)]. *)
Fixpoint dict_get (d : list (string * value)) (key : string) : option value :=
  match d with
  | [] => None
  | (k, v) :: rest => if String.eqb k key then Some v else dict_get rest key
  end%list.

(** A colour among the keywords [d] of a call of [Settings]: absent, it
    takes the default;
    the colours of a [Settings] are strings, as annotated. *)
Definition colour_argument (v : option value) : option (option string) :=
  match v with
  | None => Some None
  | Some (VStr c) => Some (Some c)
  | Some _ => None
  end.

(** The call of [Settings] with the keywords of the dict [d], written
    with two stars in Python: nothing when Python raises [TypeError] (a keyword
    that is no parameter, or no [background]) or when a colour is not a
    string. *)
Definition settings_of_kwargs (d : list (string * value)) : option Settings :=
  if forallb (fun kv => existsb (String.eqb (fst kv)) settings_slots) d then
    match dict_get d "background",
          colour_argument (dict_get d "bar_color"),
          colour_argument (dict_get d "text_color") with
    | Some bg, Some bar, Some text => Some (Settings__init__ bg bar text)
    | _, _, _ => None
    end
  else None.

(* ================================================================== *)
(** ** What a call may touch *)

(** The fields that [create] only reads. *)
Definition same_profile (c c' : RankCard) : Prop :=
  bar_color c' = bar_color c /\ text_color c' = text_color c /\
  level c' = level c /\ username c' = username c /\
  current_xp c' = current_xp c /\ max_xp c' = max_xp c.

(** The events that resolving the source [v] may log: a session and a
    request for [v] when it is a string that starts with "http", the
    opening of [v] in mode "rb" when it is another string, and the
    decoding of a content. *)
Definition source_io (v : value) (ev : event) : Prop :=
  match ev with
  | ImageOpen _ => True
  | SessionOpen | SessionClose =>
      exists u, v = VStr u /\ String.prefix "http" u = true
  | HttpGet u | ResponseRead u =>
      v = VStr u /\ String.prefix "http" u = true
  | FileOpen p m =>
      v = VStr p /\ String.prefix "http" p = false /\ m = "rb"
  | FontLoad _ _ | Print _ => False
  end.

(** The events that compositing may log: the three images and the font of
    the [assets] directory, each opened for reading, the decoding of a
    content, and the message of the [except] branch. *)
Definition asset_io (env : Env) (ev : event) : Prop :=
  match ev with
  | ImageOpen _ | Print _ => True
  | FileOpen p m =>
      m = "rb" /\
      (p = module_dir env ++ "/assets/overlay1.png" \/
       p = module_dir env ++ "/assets/mask_circle.jpg" \/
       p = module_dir env ++ "/assets/curvedoverlay.png")
  | FontLoad f sz =>
      f = module_dir env ++ "/assets/levelfont.otf" /\ (sz = 40 \/ sz = 30)
  | SessionOpen | SessionClose | HttpGet _ | ResponseRead _ => False
  end.

(** The log of the compositing stage of a call that returns: [printed] is
    what the [except] branch of line 227 printed, if it ran. *)
Definition asset_log (env : Env) (data : bytes * bytes * bytes)
    (printed : option string) : list event :=
  let '(overlay, mask, curved) := data in
  ([FileOpen (module_dir env ++ "/assets/overlay1.png") "rb";
    ImageOpen overlay;
    FontLoad (module_dir env ++ "/assets/levelfont.otf") 40;
    FontLoad (module_dir env ++ "/assets/levelfont.otf") 30;
    FileOpen (module_dir env ++ "/assets/mask_circle.jpg") "rb";
    ImageOpen mask] ++
   match printed with Some msg => [Print msg] | None => [] end ++
   [FileOpen (module_dir env ++ "/assets/curvedoverlay.png") "rb";
    ImageOpen curved])%list.

(* ================================================================== *)
(** ** More sample cards *)

Module Scenario.

(** [io.BytesIO(data)]: binary, seekable, readable, and without [mode]. *)
Definition bytes_io : buffer := {|
  buf_repr := "<_io.BytesIO object at 0x7f3a5c0d4f40>";
  buf_class := "_io.BytesIO";
  buf_seekable := true;
  buf_readable := true;
  buf_mode := None;
  buf_data := Sample.png
|}.


(** [open("out.png", "wb")]: binary, and not readable. *)
Definition write_only_file : buffer := {|
  buf_repr := "<_io.BufferedWriter name='out.png'>";
  buf_class := "_io.BufferedWriter";
  buf_seekable := true;
  buf_readable := false;
  buf_mode := Some "wb";
  buf_data := []
|}.

Definition card_with (bg av : value) (cur mx : Z) : RankCard :=
  __init__
    {| settings_background := bg;
       settings_bar_color := "white";
       settings_text_color := "white" |}
    av 5 "Alice" cur mx.

Definition avatar_url : value := VStr "https://cdn.example/avatar.png".

(** A card whose avatar URL answers 404. *)
Definition gone_avatar_card : RankCard :=
  card_with (VStr "background.jpg") (VStr "https://cdn.example/gone.png")
    250 1000.

(** A card whose background file cannot be opened. *)
Definition missing_background_card : RankCard :=
  card_with (VStr "missing.png") avatar_url 250 1000.

(** A card with nothing to reach: [max_xp] is 0. *)
Definition zero_max_card : RankCard :=
  card_with (VStr "background.jpg") avatar_url 250 0.

(** A card whose background is a [pathlib.Path]. *)
Definition path_object_card : RankCard :=
  card_with (VPath "background.jpg") avatar_url 250 1000.

End Scenario.

(* ================================================================== *)
(** ** Predicates of the proofs *)

(** The exceptions that the arithmetic of this program can raise. *)
Definition arith_exn (e : exn) : Prop :=
  e = ZeroDivisionError \/ e = OverflowError.

(** [k] shifts of a non-negative mantissa: the mantissa is divided by
    [2^k], and nothing is recorded as lost when nothing was. *)
Definition shifted (m0 : Z) (r0 s0 : bool) (k : Z) (mrs : shr_record) :=
  shr_m mrs = m0 / 2 ^ k /\
  (m0 mod 2 ^ k = 0 -> r0 = false -> s0 = false ->
   shr_r mrs = false /\ shr_s mrs = false).

(** [my * 2^ey] is a binary64 number: at most 53 bits of mantissa, and an
    exponent in the range of the format. *)
Definition representable (my : positive) (ey : Z) : Prop :=
  Zpos my < 2 ^ 53 /\ -1074 <= ey <= 971.

(* ================================================================== *)
(** * Properties *)

(** ** The monad *)

Lemma bind_inr {A B} (m : M A) (k : A -> M B) st b st' :
  bind m k st = (inr b, st') ->
  exists a st1, m st = (inr a, st1) /\ k a st1 = (inr b, st').
Proof.
  unfold bind. destruct (m st) as [[e | a] st1]; intros H.
  - discriminate.
  - exists a, st1. split; [reflexivity | exact H].
Qed.

Lemma bind_inl {A B} (m : M A) (k : A -> M B) st e st' :
  m st = (inl e, st') -> bind m k st = (inl e, st').
Proof. unfold bind. intros ->. reflexivity. Qed.

Lemma bind_step {A B} (m : M A) (k : A -> M B) st a st1 :
  m st = (inr a, st1) -> bind m k st = k a st1.
Proof. unfold bind. intros ->. reflexivity. Qed.

(** ** [_image] *)

Section ImageFacts.

Variable env : Env.

Lemma image_open_log data st :
  log (snd (image_open env data st)) = (log st ++ [ImageOpen data])%list.
Proof.
  unfold image_open, bind, emit, raise, ret. cbn.
  destruct (identify env data) as [[mode sz] |]; reflexivity.
Qed.

Lemma image_open_card data st :
  card (snd (image_open env data st)) = card st.
Proof.
  unfold image_open, bind, emit, raise, ret. cbn.
  destruct (identify env data) as [[mode sz] |]; reflexivity.
Qed.

Lemma image_open_inr data st im st' :
  image_open env data st = (inr im, st') ->
  exists mode sz, identify env data = Some (mode, sz) /\
                  im = Opened data mode sz.
Proof.
  unfold image_open, bind, emit, raise, ret. cbn.
  destruct (identify env data) as [[mode sz] |]; intros H; inversion H.
  exists mode, sz. split; reflexivity.
Qed.

Lemma image_open_not_type data st msg :
  fst (image_open env data st) <> inl (InvalidImageType msg).
Proof.
  unfold image_open, bind, emit, raise, ret. cbn.
  destruct (identify env data) as [[mode sz] |]; cbn; discriminate.
Qed.

End ImageFacts.

(** C5. A remote image is obtained only from a response whose status is
    exactly 200, and then it is the decoding of that response's body; on
    any other status [_image] raises [InvalidImageUrl] having opened the
    session, sent the request and closed the session, and nothing was read
    or decoded. *)
Theorem image_requires_status_200 (env : Env) (url : string) (st : state) :
  (forall im st',
      _image env url st = (inr im, st') ->
      exists body mode sz,
        http_get env url = Some (200, body) /\
        identify env body = Some (mode, sz) /\
        im = Opened body mode sz) /\
  (forall status body,
      http_get env url = Some (status, body) ->
      status <> 200 ->
      _image env url st =
        (inl (InvalidImageUrl ("Invalid image url: " ++ url)),
         {| card := card st;
            log := (log st ++ [SessionOpen; HttpGet url; SessionClose])%list |})).
Proof.
  split.
  - intros im st'. unfold _image, finally, bind, emit, raise. cbn.
    destruct (http_get env url) as [[status body] |]; cbn.
    + destruct (Z.eqb_spec status 200) as [-> | Hne]; cbn.
      * destruct (identify env body) as [[mode sz] |] eqn:Hid; cbn;
          intros H; inversion H; subst.
        exists body, mode, sz. repeat split; assumption.
      * discriminate.
    + discriminate.
  - intros status body Hget Hne.
    unfold _image, finally, bind, emit, raise. cbn. rewrite Hget.
    destruct (Z.eqb_spec status 200) as [-> | _]; [contradiction |]. cbn.
    rewrite <- !app_assoc. reflexivity.
Qed.

Lemma image_requires_status_200_witness :
  _image Sample.env "https://cdn.example/gone.png"
    {| card := Sample.rank_card; log := [] |} =
  (inl (InvalidImageUrl "Invalid image url: https://cdn.example/gone.png"),
   {| card := Sample.rank_card;
      log := [SessionOpen; HttpGet "https://cdn.example/gone.png";
              SessionClose] |}).
Proof.
  apply (proj2 (image_requires_status_200 Sample.env
                  "https://cdn.example/gone.png"
                  {| card := Sample.rank_card; log := [] |}) 404 []).
  - reflexivity.
  - discriminate.
Defined.

(** ** [compose] *)

Lemma text_y_20 :
  text_y 20 = inr (NFloat (S754_finite false 6456332278300672 (-45))).
Proof. vm_compute. reflexivity. Qed.

Lemma text_y_125 :
  text_y 125 = inr (NFloat (S754_finite false 5075345673814016 (-44))).
Proof. vm_compute. reflexivity. Qed.

Ltac run_monad :=
  unfold image_open_file, image_open, truetype, set_bg, paste_mask,
    lift, bind, emit, get, modify, raise, ret;
  cbn -[Z.sub Z.add Z.mul Z.of_nat String.append String.prefix
        bar_exp _convert_number text_y size_eqb].

Ltac step_compose :=
  match goal with
  | |- context [match read_file ?env ?p with _ => _ end] =>
      destruct (read_file env p) eqn:?; run_monad; [| discriminate]
  | |- context [match identify ?env ?p with _ => _ end] =>
      destruct (identify env p) as [[? ?]|] eqn:?; run_monad; [| discriminate]
  | |- context [if size_eqb ?a ?b then _ else _] =>
      destruct (size_eqb a b) eqn:?; run_monad; [| discriminate]
  | |- context [match bar_exp ?a ?b with _ => _ end] =>
      destruct (bar_exp a b) eqn:?; run_monad; [discriminate |]
  | |- context [match _convert_number ?a with _ => _ end] =>
      destruct (_convert_number a) eqn:?; run_monad; [discriminate |]
  | |- context [match alpha_paste_error ?env ?a with _ => _ end] =>
      destruct (alpha_paste_error env a) eqn:?; run_monad
  end.

Lemma compose_inr env bg0 av0 st buf st' :
  compose env bg0 av0 st = (inr buf, st') ->
  exists im cur mx lvl bar,
    background (card st') = VImage im /\
    size im = (505, 259) /\
    buf = {| bio_data := png_encode env im; bio_pos := 0 |} /\
    _convert_number (current_xp (card st)) = inr cur /\
    _convert_number (max_xp (card st)) = inr mx /\
    _convert_number (level (card st)) = inr lvl /\
    bar_exp (current_xp (card st)) (max_xp (card st)) = inr bar /\
    texts im =
      (texts bg0 ++
       [(NInt 205, NFloat (S754_finite false 6456332278300672 (-45)),
         username (card st), levelfont env 40);
        (NInt 197, NFloat (S754_finite false 5075345673814016 (-44)),
         ("LEVEL - " ++ lvl)%string, levelfont env 30);
        (NInt (638 - fst (textsize env (levelfont env 30)
                            (cur ++ "/" ++ mx)%string)
               - 50),
         NFloat (S754_finite false 5075345673814016 (-44)),
         (cur ++ "/" ++ mx)%string, levelfont env 30)] ++
       texts av0)%list /\
    rectangles im =
      (rectangles bg0 ++ rectangles av0 ++
       [(NInt 0, NInt 0, NInt 420, NInt 50, ColorRGBA 255 255 255 50);
        (NInt 0, NInt 0, bar, NInt 50, ColorName (bar_color (card st)))])%list.
Proof.
  unfold compose. rewrite text_y_20, text_y_125. run_monad.
  repeat step_compose.
  all: intros H; inversion H; subst; clear H.
  all: do 5 eexists; repeat split; try reflexivity; try eassumption.
  all: cbn [texts rectangles app]; unfold levelfont;
    rewrite ?app_nil_r, <- ?app_assoc; reflexivity.
Qed.

(** ** Resolving the two sources *)

Lemma resolve_background_inr env st im st' :
  resolve_background env st = (inr im, st') ->
  (exists data mode sz, im = Opened data mode sz) /\
  card st' = set_background (VImage im) (card st).
Proof.
  unfold resolve_background, buffer_check, _image, finally. run_monad.
  destruct (background (card st)) as [| z | s | p | b | im0]; run_monad;
    try discriminate.
  - destruct (String.prefix "http" s); run_monad.
    + destruct (http_get env s) as [[status body] |]; run_monad;
        [| discriminate].
      destruct (status =? 200); run_monad; [| discriminate].
      destruct (identify env body) as [[mode sz] |]; run_monad;
        intros H; inversion H; subst.
      split; [do 3 eexists |]; reflexivity.
    + destruct (read_file env s) as [data |]; run_monad; [| discriminate].
      destruct (identify env data) as [[mode sz] |]; run_monad;
        intros H; inversion H; subst.
      split; [do 3 eexists |]; reflexivity.
  - destruct (buf_seekable b), (buf_readable b); run_monad;
      try discriminate.
    destruct (buf_mode b) as [m |]; run_monad; [| discriminate].
    destruct (String.eqb m "rb"); run_monad; [| discriminate].
    destruct (identify env (buf_data b)) as [[mode sz] |]; run_monad;
      intros H; inversion H; subst.
    split; [do 3 eexists |]; reflexivity.
Qed.

Lemma resolve_avatar_inr env st im st' :
  resolve_avatar env st = (inr im, st') ->
  (exists data mode sz, im = Opened data mode sz) /\
  card st' = set_avatar (VImage im) (card st).
Proof.
  unfold resolve_avatar, _image, finally. run_monad.
  destruct (avatar (card st)) as [| z | s | p | b | im0]; run_monad;
    try discriminate.
  destruct (String.prefix "http" s); run_monad.
  - destruct (http_get env s) as [[status body] |]; run_monad;
      [| discriminate].
    destruct (status =? 200); run_monad; [| discriminate].
    destruct (identify env body) as [[mode sz] |]; run_monad;
      intros H; inversion H; subst.
    split; [do 3 eexists |]; reflexivity.
  - destruct (read_file env s) as [data |]; run_monad; [| discriminate].
    destruct (identify env data) as [[mode sz] |]; run_monad;
      intros H; inversion H; subst.
    split; [do 3 eexists |]; reflexivity.
Qed.

(** A call that returns went through the three stages, on the card as the
    stages before left it. *)
Lemma create_inr env c buf st' :
  run_create env c = (inr buf, st') ->
  exists bg av st2,
    texts bg = [] /\ texts av = [] /\
    rectangles bg = [] /\ rectangles av = [] /\
    card st2 = set_avatar (VImage av) (set_background (VImage bg) c) /\
    compose env bg av st2 = (inr buf, st').
Proof.
  unfold run_create, create. intros H.
  apply bind_inr in H. destruct H as (bg & st1 & Hbg & H).
  apply bind_inr in H. destruct H as (av & st2 & Hav & H).
  apply resolve_background_inr in Hbg.
  destruct Hbg as ((d1 & m1 & s1 & ->) & Hc1).
  apply resolve_avatar_inr in Hav.
  destruct Hav as ((d2 & m2 & s2 & ->) & Hc2).
  exists (Opened d1 m1 s1), (Opened d2 m2 s2), st2.
  repeat split; try reflexivity; [| exact H].
  rewrite Hc2, Hc1. reflexivity.
Qed.

Lemma create_leaves_image env c buf st' :
  run_create env c = (inr buf, st') ->
  exists im, background (card st') = VImage im.
Proof.
  intros Hrun. apply create_inr in Hrun.
  destruct Hrun as (bg & av & st2 & _ & _ & _ & _ & _ & Hcomp).
  apply compose_inr in Hcomp.
  destruct Hcomp as (im & cur & mx & lvl & bar & Hbg & _).
  exists im. exact Hbg.
Qed.

(** ** The returned card *)

(** C7. Every call of [create] that returns leaves in [background] an image
    of size 505 by 259, and returns a [BytesIO] that holds the PNG encoding
    of that image and whose position is 0. *)
Theorem create_returns_png_505x259 (env : Env) (c : RankCard)
    (buf : BytesIO) (st' : state)
    (Hrun : run_create env c = (inr buf, st')) :
  exists im,
    background (card st') = VImage im /\
    size im = (505, 259) /\
    bio_data buf = png_encode env im /\
    bio_pos buf = 0.
Proof.
  apply create_inr in Hrun.
  destruct Hrun as (bg & av & st2 & _ & _ & _ & _ & _ & Hcomp).
  apply compose_inr in Hcomp.
  destruct Hcomp as (im & cur & mx & lvl & bar & Hbg & Hsz & -> & _).
  exists im. repeat split; assumption.
Qed.

Lemma create_returns_png_505x259_witness :
  exists im,
    background (card (snd (run_create Sample.env Sample.rank_card))) =
      VImage im /\
    size im = (505, 259) /\
    bio_data {| bio_data := Sample.png; bio_pos := 0 |} =
      png_encode Sample.env im /\
    bio_pos {| bio_data := Sample.png; bio_pos := 0 |} = 0.
Proof.
  apply (create_returns_png_505x259 Sample.env Sample.rank_card
           {| bio_data := Sample.png; bio_pos := 0 |}
           (snd (run_create Sample.env Sample.rank_card))).
  vm_compute. reflexivity.
Defined.

(** C6. In every call of [create] that returns, exactly three strings were
    drawn, in this order: the user name; "LEVEL - " and the formatted level
    at (197, 288.5) in the 30-point font; and the two formatted XP strings
    joined by "/", in the same font, at the same height 288.5 and at
    x = 638 - w - 50, where w is the width that [textsize] measures for
    that very string in that font. *)
Theorem xp_text_is_right_aligned (env : Env) (c : RankCard)
    (buf : BytesIO) (st' : state)
    (Hrun : run_create env c = (inr buf, st')) :
  exists im cur mx lvl y,
    background (card st') = VImage im /\
    _convert_number (current_xp c) = inr cur /\
    _convert_number (max_xp c) = inr mx /\
    _convert_number (level c) = inr lvl /\
    (exists q, PyFloat.to_Q y = Some q /\ (q == 577 # 2)%Q) /\
    font_size (levelfont env 30) = 30 /\
    texts im =
      [(NInt 205, NFloat (S754_finite false 6456332278300672 (-45)),
        username c, levelfont env 40);
       (NInt 197, NFloat y, "LEVEL - " ++ lvl, levelfont env 30);
       (NInt (638 - fst (textsize env (levelfont env 30) (cur ++ "/" ++ mx))
              - 50),
        NFloat y, cur ++ "/" ++ mx, levelfont env 30)].
Proof.
  apply create_inr in Hrun.
  destruct Hrun as (bg & av & st2 & Htb & Hta & _ & _ & Hcard & Hcomp).
  apply compose_inr in Hcomp.
  destruct Hcomp as (im & cur & mx & lvl & bar & Hbg & _ & _ &
                     Hcur & Hmx & Hlvl & _ & Htexts & _).
  rewrite Hcard in Hcur, Hmx, Hlvl, Htexts. cbn in Hcur, Hmx, Hlvl.
  exists im, cur, mx, lvl, (S754_finite false 5075345673814016 (-44)).
  repeat split; try assumption.
  - eexists. split; [reflexivity |]. vm_compute. reflexivity.
  - rewrite Htexts, Htb, Hta. cbn. reflexivity.
Qed.

Lemma xp_text_is_right_aligned_witness :
  exists im cur mx lvl y,
    background (card (snd (run_create Sample.env Sample.rank_card))) =
      VImage im /\
    _convert_number (current_xp Sample.rank_card) = inr cur /\
    _convert_number (max_xp Sample.rank_card) = inr mx /\
    _convert_number (level Sample.rank_card) = inr lvl /\
    (exists q, PyFloat.to_Q y = Some q /\ (q == 577 # 2)%Q) /\
    font_size (levelfont Sample.env 30) = 30 /\
    texts im =
      [(NInt 205, NFloat (S754_finite false 6456332278300672 (-45)),
        username Sample.rank_card, levelfont Sample.env 40);
       (NInt 197, NFloat y, "LEVEL - " ++ lvl, levelfont Sample.env 30);
       (NInt (638 - fst (textsize Sample.env (levelfont Sample.env 30)
                           (cur ++ "/" ++ mx)) - 50),
        NFloat y, cur ++ "/" ++ mx, levelfont Sample.env 30)].
Proof.
  apply (xp_text_is_right_aligned Sample.env Sample.rank_card
           {| bio_data := Sample.png; bio_pos := 0 |}
           (snd (run_create Sample.env Sample.rank_card))).
  vm_compute. reflexivity.
Defined.

(** ** Calling [create] twice *)

(** C9. After a call of [create] that returned, [background] holds an image;
    a second call on the same card, in any environment, raises
    [InvalidImageType] at once: nothing is logged and the card is left as
    it was. *)
Theorem create_not_repeatable (env : Env) (c : RankCard)
    (buf : BytesIO) (st' : state)
    (Hrun : run_create env c = (inr buf, st')) :
  (exists im, background (card st') = VImage im) /\
  forall env',
    run_create env' (card st') =
      (inl (InvalidImageType
              "background must be a path or url or a file buffer, not <class 'PIL.Image.Image'>"),
       start (card st')).
Proof.
  apply create_leaves_image in Hrun.
  destruct Hrun as (im & Hbg).
  split; [exists im; exact Hbg |].
  intros env'. unfold run_create, create, resolve_background, start.
  run_monad. rewrite Hbg. reflexivity.
Qed.

Lemma create_not_repeatable_witness :
  (exists im,
      background (card (snd (run_create Sample.env Sample.rank_card))) =
        VImage im) /\
  forall env',
    run_create env' (card (snd (run_create Sample.env Sample.rank_card))) =
      (inl (InvalidImageType
              "background must be a path or url or a file buffer, not <class 'PIL.Image.Image'>"),
       start (card (snd (run_create Sample.env Sample.rank_card)))).
Proof.
  apply (create_not_repeatable Sample.env Sample.rank_card
           {| bio_data := Sample.png; bio_pos := 0 |}).
  vm_compute. reflexivity.
Defined.

(** ** The order of the checks *)

Lemma resolve_avatar_not_str env st :
  (forall s, avatar (card st) <> VStr s) ->
  resolve_avatar env st =
    (inl (InvalidImageType
            ("avatar must be a url, not " ++ type_repr (avatar (card st)))),
     st).
Proof.
  intros Hav. unfold resolve_avatar. run_monad.
  destruct (avatar (card st)) as [| z | s | p | b | im0]; try reflexivity.
  exfalso. apply (Hav s). reflexivity.
Qed.

(** C2, as stated, fails: with a background given as a URL that answers 200
    and an avatar that is an [int], the session is opened, the request sent
    and the body read before [create] raises. *)
Lemma avatar_check_follows_background_io :
  ~ (forall env c,
        (forall s, avatar c <> VStr s) ->
        (exists msg, fst (run_create env c) = inl (InvalidImageType msg)) /\
        existsb is_io (log (snd (run_create env c))) = false).
Proof.
  intros H.
  destruct (H Sample.env Sample.int_avatar_card) as [_ Hlog].
  - intros s. discriminate.
  - vm_compute in Hlog. discriminate.
Qed.

(** C2, amended. With an avatar that is not a string, [create] does exactly
    what resolving the background does and then stops: if the background
    fails to resolve, [create] raises that error; if it resolves, [create]
    raises [InvalidImageType] for the avatar, in the state the background
    left, so that nothing was fetched or opened for the avatar or the
    assets.  With a background given as a buffer, nothing is fetched and
    no file is opened at all: only the buffer is read. *)
Theorem non_string_avatar_rejected_after_background (env : Env)
    (c : RankCard) (Hav : forall s, avatar c <> VStr s) :
  (forall e st1,
      resolve_background env (start c) = (inl e, st1) ->
      run_create env c = (inl e, st1)) /\
  (forall bg st1,
      resolve_background env (start c) = (inr bg, st1) ->
      run_create env c =
        (inl (InvalidImageType
                ("avatar must be a url, not " ++ type_repr (avatar c))),
         st1)) /\
  (forall b,
      background c = VBuffer b ->
      existsb is_io (log (snd (run_create env c))) = false).
Proof.
  assert (Hfail : forall e st1,
             resolve_background env (start c) = (inl e, st1) ->
             run_create env c = (inl e, st1)).
  { intros e st1 Hbg. unfold run_create, create.
    apply bind_inl. exact Hbg. }
  assert (Hok : forall bg st1,
             resolve_background env (start c) = (inr bg, st1) ->
             run_create env c =
               (inl (InvalidImageType
                       ("avatar must be a url, not " ++ type_repr (avatar c))),
                st1)).
  { intros bg st1 Hbg. unfold run_create, create.
    rewrite (bind_step _ _ _ _ _ Hbg).
    apply resolve_background_inr in Hbg. destruct Hbg as [_ Hcard].
    assert (Hsame : avatar (card st1) = avatar c).
    { rewrite Hcard. reflexivity. }
    apply bind_inl. rewrite <- Hsame. apply resolve_avatar_not_str.
    rewrite Hsame. exact Hav. }
  split; [exact Hfail | split; [exact Hok |]].
  intros b Hb.
  destruct (resolve_background env (start c)) as [[e | bg] st1] eqn:Hbg.
  - rewrite (Hfail _ _ eq_refl). cbn [snd].
    revert Hbg. unfold resolve_background, buffer_check, start. run_monad.
    rewrite Hb. run_monad.
    destruct (buf_seekable b), (buf_readable b); run_monad;
      try (intros H; inversion H; reflexivity).
    destruct (buf_mode b) as [m |]; run_monad;
      try (intros H; inversion H; reflexivity).
    destruct (String.eqb m "rb"); run_monad;
      try (intros H; inversion H; reflexivity).
    destruct (identify env (buf_data b)) as [[mode sz] |]; run_monad;
      intros H; inversion H; reflexivity.
  - rewrite (Hok _ _ eq_refl). cbn [snd].
    revert Hbg. unfold resolve_background, buffer_check, start. run_monad.
    rewrite Hb. run_monad.
    destruct (buf_seekable b), (buf_readable b); run_monad;
      try discriminate.
    destruct (buf_mode b) as [m |]; run_monad; try discriminate.
    destruct (String.eqb m "rb"); run_monad; try discriminate.
    destruct (identify env (buf_data b)) as [[mode sz] |]; run_monad;
      intros H; inversion H; reflexivity.
Qed.

Lemma non_string_avatar_rejected_after_background_witness :
  run_create Sample.env Sample.int_avatar_card =
    (inl (InvalidImageType "avatar must be a url, not <class 'int'>"),
     snd (resolve_background Sample.env (start Sample.int_avatar_card))).
Proof.
  assert (Hav : forall s, avatar Sample.int_avatar_card <> VStr s)
    by (intros s; discriminate).
  apply (proj1 (proj2 (non_string_avatar_rejected_after_background
                         Sample.env Sample.int_avatar_card Hav))
           (Opened Sample.png "RGBA" (638, 327))).
  vm_compute. reflexivity.
Defined.

(** ** Buffers *)

(** A buffer that has a [mode] attribute and is not seekable, not readable
    or not in mode "rb" is refused with [InvalidImageType], before anything
    is read. *)
Lemma buffer_with_mode_rejected env c b m :
  background c = VBuffer b ->
  buf_mode b = Some m ->
  buf_seekable b && buf_readable b && String.eqb m "rb" = false ->
  run_create env c =
    (inl (InvalidImageType
            ("File buffer " ++ buf_repr b ++
             " must be seekable and readable and in binary mode")),
     start c).
Proof.
  intros Hb Hm Hbad.
  unfold run_create, create, resolve_background, buffer_check, start.
  run_monad. rewrite Hb. run_monad. rewrite Hm.
  destruct (buf_seekable b), (buf_readable b); run_monad;
    try reflexivity.
  cbn in Hbad. rewrite Hbad. reflexivity.
Qed.

Example text_file_rejected env :
  fst (run_create env Sample.text_file_card) =
    inl (InvalidImageType
           "File buffer <_io.TextIOWrapper name='bg.png' mode='r' encoding='UTF-8'> must be seekable and readable and in binary mode").
Proof. reflexivity. Qed.

(** C4, at the failing input. A background that is an [io.StringIO] (text,
    seekable, readable, without a [mode] attribute) makes [create] raise
    [AttributeError], not [InvalidImageType], in every environment. *)
Theorem string_io_background_raises_attribute_error (env : Env) :
  run_create env Sample.string_io_card =
    (inl (AttributeError "'_io.StringIO' object has no attribute 'mode'"),
     start Sample.string_io_card).
Proof. reflexivity. Qed.

(** Any seekable and readable buffer without a [mode] attribute does the
    same, whatever its content. *)
Lemma buffer_without_mode_raises_attribute_error env c b :
  background c = VBuffer b ->
  buf_seekable b = true -> buf_readable b = true -> buf_mode b = None ->
  run_create env c =
    (inl (AttributeError
            ("'" ++ buf_class b ++ "' object has no attribute 'mode'")),
     start c).
Proof.
  intros Hb Hs Hr Hm.
  unfold run_create, create, resolve_background, buffer_check, start.
  run_monad. rewrite Hb. run_monad. rewrite Hs, Hr, Hm. reflexivity.
Qed.

(** ** Exceptions of the arithmetic *)

Lemma of_arith_inl {A} (r : PyFloat.arith_error + A) e :
  of_arith r = inl e -> arith_exn e.
Proof.
  destruct r as [[|] | a]; cbn [of_arith]; intros H; inversion H;
    [left | right]; reflexivity.
Qed.

Lemma bar_exp_inl a b e : bar_exp a b = inl e -> arith_exn e.
Proof.
  unfold bar_exp.
  destruct (of_arith (PyFloat.true_divide a b)) as [e0 | q] eqn:Hq.
  - intros H; inversion H; subst. exact (of_arith_inl _ _ Hq).
  - destruct (PyFloat.leb _ _); discriminate.
Qed.

Lemma convert_number_inl n e : _convert_number n = inl e -> arith_exn e.
Proof.
  unfold _convert_number.
  destruct (n >=? 1000000).
  - destruct (of_arith (PyFloat.true_divide n 1000000)) as [e0 | q] eqn:Hq;
      intros H; inversion H; subst. exact (of_arith_inl _ _ Hq).
  - destruct (n >=? 1000).
    + destruct (of_arith (PyFloat.true_divide n 1000)) as [e0 | q] eqn:Hq;
        intros H; inversion H; subst. exact (of_arith_inl _ _ Hq).
    + discriminate.
Qed.

Lemma arith_exn_not_type e msg : arith_exn e -> e <> InvalidImageType msg.
Proof. intros [-> | ->]; discriminate. Qed.

(** ** [compose] raises no [InvalidImageType] and only adds to the log *)

Ltac step_all tac :=
  match goal with
  | |- context [match read_file ?env ?p with _ => _ end] =>
      destruct (read_file env p) eqn:?; run_monad; [| tac]
  | |- context [match identify ?env ?p with _ => _ end] =>
      destruct (identify env p) as [[? ?]|] eqn:?; run_monad; [| tac]
  | |- context [if size_eqb ?a ?b then _ else _] =>
      destruct (size_eqb a b) eqn:?; run_monad; [| tac]
  | |- context [match bar_exp ?a ?b with _ => _ end] =>
      destruct (bar_exp a b) eqn:?; run_monad; [tac |]
  | |- context [match _convert_number ?a with _ => _ end] =>
      destruct (_convert_number a) eqn:?; run_monad; [tac |]
  | |- context [match alpha_paste_error ?env ?a with _ => _ end] =>
      destruct (alpha_paste_error env a) eqn:?; run_monad
  end.

Lemma compose_not_type env bg0 av0 st msg :
  fst (compose env bg0 av0 st) <> inl (InvalidImageType msg).
Proof.
  unfold compose. rewrite text_y_20, text_y_125. run_monad.
  repeat step_all
    ltac:(first
            [ discriminate
            | intros Heq; inversion Heq; subst;
              match goal with
              | H : bar_exp _ _ = inl _ |- _ =>
                  apply bar_exp_inl in H; destruct H; discriminate
              | H : _convert_number _ = inl _ |- _ =>
                  apply convert_number_inl in H; destruct H; discriminate
              end ]).
  all: discriminate.
Qed.

Lemma compose_log env bg0 av0 st :
  exists rest, log (snd (compose env bg0 av0 st)) = (log st ++ rest)%list.
Proof.
  unfold compose. rewrite text_y_20, text_y_125. run_monad.
  repeat step_all
    ltac:(eexists; rewrite <- ?app_assoc; reflexivity).
  all: eexists; rewrite <- ?app_assoc; reflexivity.
Qed.

(** ** An avatar that is a local path *)

Lemma resolve_avatar_path env st s :
  avatar (card st) = VStr s ->
  String.prefix "http" s = false ->
  (forall msg, fst (resolve_avatar env st) <> inl (InvalidImageType msg)) /\
  (exists rest,
      log (snd (resolve_avatar env st)) =
        (log st ++ FileOpen s "rb" :: rest)%list) /\
  (forall av st2,
      resolve_avatar env st = (inr av, st2) ->
      exists rest, log st2 = (log st ++ FileOpen s "rb" :: rest)%list).
Proof.
  intros Hav Hnot. unfold resolve_avatar. run_monad.
  rewrite Hav, Hnot. run_monad.
  destruct (read_file env s) as [data |]; run_monad.
  - destruct (identify env data) as [[mode sz] |]; run_monad.
    + repeat split.
      * discriminate.
      * eexists. rewrite <- app_assoc. reflexivity.
      * intros av st2 H. inversion H; subst. cbn.
        eexists. rewrite <- app_assoc. reflexivity.
    + repeat split.
      * discriminate.
      * eexists. rewrite <- app_assoc. reflexivity.
      * discriminate.
  - repeat split.
    + discriminate.
    + eexists. reflexivity.
    + discriminate.
Qed.

(** C10. With an avatar that is a string not starting with "http", the
    avatar step of [create] raises no [InvalidImageType]: its first action
    is to open that string as a file in mode "rb".  So [create] raises
    [InvalidImageType] only if resolving the background did, and once the
    background has resolved, the next entry of the log is the opening of
    the avatar path. *)
Theorem local_path_avatar_is_opened (env : Env) (c : RankCard) (s : string)
    (Hav : avatar c = VStr s) (Hnot : String.prefix "http" s = false) :
  (forall msg, fst (resolve_avatar env (start c)) <> inl (InvalidImageType msg)) /\
  (exists rest,
      log (snd (resolve_avatar env (start c))) = FileOpen s "rb" :: rest) /\
  (forall msg,
      fst (run_create env c) = inl (InvalidImageType msg) ->
      fst (resolve_background env (start c)) = inl (InvalidImageType msg)) /\
  (forall bg st1,
      resolve_background env (start c) = (inr bg, st1) ->
      exists rest,
        log (snd (run_create env c)) =
          (log st1 ++ FileOpen s "rb" :: rest)%list).
Proof.
  split; [| split; [| split]].
  - apply (resolve_avatar_path env (start c) s Hav Hnot).
  - destruct (resolve_avatar_path env (start c) s Hav Hnot)
      as (_ & (rest & Hlog) & _).
    exists rest. exact Hlog.
  - intros msg. unfold run_create, create.
    destruct (resolve_background env (start c)) as [[e | bg] st1] eqn:Hbg.
    + rewrite (bind_inl _ _ _ _ _ Hbg). cbn [fst]. intros H.
      inversion H. reflexivity.
    + rewrite (bind_step _ _ _ _ _ Hbg).
      apply resolve_background_inr in Hbg. destruct Hbg as [_ Hcard].
      assert (Hav1 : avatar (card st1) = VStr s)
        by (rewrite Hcard; exact Hav).
      destruct (resolve_avatar_path env st1 s Hav1 Hnot) as (Hty & _).
      destruct (resolve_avatar env st1) as [[e | av] st2] eqn:Hav2.
      * rewrite (bind_inl _ _ _ _ _ Hav2). cbn [fst]. intros H.
        exfalso. apply (Hty msg). cbn [fst]. inversion H. reflexivity.
      * rewrite (bind_step _ _ _ _ _ Hav2). intros H.
        exfalso. exact (compose_not_type env bg av st2 msg H).
  - intros bg st1 Hbg. unfold run_create, create.
    rewrite (bind_step _ _ _ _ _ Hbg).
    apply resolve_background_inr in Hbg. destruct Hbg as [_ Hcard].
    assert (Hav1 : avatar (card st1) = VStr s)
      by (rewrite Hcard; exact Hav).
    destruct (resolve_avatar_path env st1 s Hav1 Hnot)
      as (_ & (rest & Hlog) & Hok).
    destruct (resolve_avatar env st1) as [[e | av] st2] eqn:Hav2.
    + rewrite (bind_inl _ _ _ _ _ Hav2). exists rest. exact Hlog.
    + rewrite (bind_step _ _ _ _ _ Hav2).
      destruct (Hok av st2 eq_refl) as (rest2 & Hlog2).
      destruct (compose_log env bg av st2) as (rest3 & Hlog3).
      rewrite Hlog3, Hlog2. exists (rest2 ++ rest3)%list.
      rewrite <- app_assoc. reflexivity.
Qed.

Lemma local_path_avatar_is_opened_witness :
  exists rest,
    log (snd (run_create Sample.env Sample.path_avatar_card)) =
      (log (snd (resolve_background Sample.env
                   (start Sample.path_avatar_card))) ++
       FileOpen "avatars/alice.png" "rb" :: rest)%list.
Proof.
  apply (proj2 (proj2 (proj2 (local_path_avatar_is_opened Sample.env
                                Sample.path_avatar_card "avatars/alice.png"
                                eq_refl eq_refl)))
           (Opened Sample.png "RGBA" (638, 327))).
  vm_compute. reflexivity.
Defined.

(* ================================================================== *)
(** ** Rounding *)

Section RoundingFacts.


Lemma fexp_eq e :
  fexp PyFloat.prec PyFloat.emax e = Z.max (e - 53) (-1074).
Proof. reflexivity. Qed.

Lemma digits2_pos_bounds p :
  2 ^ (Zpos (digits2_pos p) - 1) <= Zpos p < 2 ^ Zpos (digits2_pos p).
Proof.
  induction p as [p IH | p IH |]; cbn [digits2_pos].
  - rewrite Pos2Z.inj_succ.
    replace (Z.succ (Zpos (digits2_pos p)) - 1)
      with (Z.succ (Zpos (digits2_pos p) - 1)) by lia.
    rewrite !Z.pow_succ_r by lia. lia.
  - rewrite Pos2Z.inj_succ.
    replace (Z.succ (Zpos (digits2_pos p)) - 1)
      with (Z.succ (Zpos (digits2_pos p) - 1)) by lia.
    rewrite !Z.pow_succ_r by lia. lia.
  - cbn. lia.
Qed.

Lemma pow2_pos k : 0 < 2 ^ k \/ k < 0.
Proof.
  destruct (Z_lt_le_dec k 0); [right; assumption | left].
  apply Z.pow_pos_nonneg; lia.
Qed.

Lemma pow2_lt_inv a b : 2 ^ a < 2 ^ b -> 0 <= a -> a < b.
Proof.
  intros H Ha. destruct (Z_lt_le_dec a b) as [Hlt | Hge]; [exact Hlt |].
  exfalso. destruct (Z_lt_le_dec b 0) as [Hb | Hb].
  - rewrite (Z.pow_neg_r 2 b Hb) in H.
    pose proof (Z.pow_pos_nonneg 2 a ltac:(lia) Ha). lia.
  - pose proof (Z.pow_le_mono_r 2 b a ltac:(lia) Hge). lia.
Qed.

(** Iterating a step [p] times carries an invariant indexed by the number
    of steps done. *)
Lemma iter_pos_inv {A} (f : A -> A) (P : Z -> A -> Prop) :
  (forall k x, 0 <= k -> P k x -> P (k + 1) (f x)) ->
  forall p k x, 0 <= k -> P k x -> P (k + Zpos p) (iter_pos f p x).
Proof.
  intros Hstep. induction p as [p IH | p IH |]; intros k x Hk HP;
    cbn [iter_pos].
  - replace (k + Zpos p~1) with (k + 1 + Zpos p + Zpos p) by lia.
    apply IH; [lia |]. apply IH; [lia |]. apply Hstep; assumption.
  - replace (k + Zpos p~0) with (k + Zpos p + Zpos p) by lia.
    apply IH; [lia |]. apply IH; assumption.
  - apply Hstep; assumption.
Qed.

Lemma shr_1_spec mrs :
  0 <= shr_m mrs ->
  shr_m (shr_1 mrs) = shr_m mrs / 2 /\
  shr_r (shr_1 mrs) = Z.odd (shr_m mrs) /\
  shr_s (shr_1 mrs) = shr_r mrs || shr_s mrs.
Proof.
  destruct mrs as [m r s]. cbn [shr_m shr_r shr_s]. intros Hm.
  destruct m as [| [p | p |] |]; cbn [shr_1 shr_m shr_r shr_s];
    try lia.
  - repeat split.
  - repeat split. apply Z.div_unique with (r := 1); lia.
  - repeat split. apply Z.div_unique with (r := 0); lia.
  - repeat split.
Qed.

Lemma shifted_step m0 r0 s0 k mrs :
  0 <= m0 -> 0 <= k ->
  shifted m0 r0 s0 k mrs -> shifted m0 r0 s0 (k + 1) (shr_1 mrs).
Proof.
  intros Hm0 Hk [Hm Hex].
  assert (Hpk : 0 < 2 ^ k) by (apply Z.pow_pos_nonneg; lia).
  assert (Hnn : 0 <= shr_m mrs)
    by (rewrite Hm; apply Z.div_pos; lia).
  destruct (shr_1_spec mrs Hnn) as (H1 & H2 & H3).
  assert (Hpow : 2 ^ (k + 1) = 2 ^ k * 2)
    by (rewrite Z.pow_add_r by lia; reflexivity).
  split.
  - rewrite H1, Hm, Hpow. rewrite Z.div_div by lia. reflexivity.
  - intros Hmod Hr0 Hs0. rewrite H2, H3.
    rewrite Hpow in Hmod.
    assert (Hdiv : m0 = 2 ^ k * 2 * (m0 / (2 ^ k * 2))).
    { pose proof (Z.div_mod m0 (2 ^ k * 2) ltac:(lia)). lia. }
    assert (Hmodk : m0 mod 2 ^ k = 0).
    { rewrite Hdiv. rewrite <- Z.mul_assoc, Z.mul_comm.
      apply Z.mod_mul. lia. }
    destruct (Hex Hmodk Hr0 Hs0) as [-> ->].
    split; [| reflexivity].
    rewrite Hm. rewrite Hdiv at 1.
    rewrite <- Z.mul_assoc, Z.mul_comm, Z.div_mul by lia.
    rewrite Z.odd_mul. reflexivity.
Qed.

Lemma shr_spec m l e n :
  0 <= m ->
  let k := Z.max 0 n in
  snd (shr (shr_record_of_loc m l) e n) = e + k /\
  shr_m (fst (shr (shr_record_of_loc m l) e n)) = m / 2 ^ k /\
  (l = loc_Exact -> m mod 2 ^ k = 0 ->
   loc_of_shr_record (fst (shr (shr_record_of_loc m l) e n)) = loc_Exact).
Proof.
  intros Hm k.
  assert (Hm0 : shr_m (shr_record_of_loc m l) = m)
    by (destruct l as [| []]; reflexivity).
  destruct n as [| p | p]; cbn [shr fst snd].
  - subst k. cbn [Z.max]. rewrite Z.add_0_r, Hm0.
    change (2 ^ Z.max 0 0) with 1. rewrite Z.div_1_r.
    repeat split. intros ->. reflexivity.
  - subst k. replace (Z.max 0 (Zpos p)) with (Zpos p) by lia.
    pose proof (iter_pos_inv shr_1
                  (shifted m (shr_r (shr_record_of_loc m l))
                     (shr_s (shr_record_of_loc m l)))
                  (fun k x Hk => shifted_step m _ _ k x Hm Hk)
                  p 0 (shr_record_of_loc m l) ltac:(lia)) as Hinv.
    cbn [Z.add] in Hinv.
    destruct Hinv as [H1 H2].
    { split.
      - rewrite Hm0. change (2 ^ 0) with 1. rewrite Z.div_1_r. reflexivity.
      - intros _ -> ->. split; reflexivity. }
    repeat split; [exact H1 |].
    intros -> Hmod. destruct (H2 Hmod eq_refl eq_refl) as [Hr Hs].
    destruct (iter_pos shr_1 p _) as [m' r' s'].
    cbn in Hr, Hs. subst. reflexivity.
  - subst k. replace (Z.max 0 (Zneg p)) with 0 by lia.
    rewrite Z.add_0_r, Hm0. change (2 ^ 0) with 1. rewrite Z.div_1_r.
    repeat split. intros ->. reflexivity.
Qed.

Lemma round_nearest_even_bounds m l :
  m <= round_nearest_even m l <= m + 1 /\
  (l = loc_Exact -> round_nearest_even m l = m).
Proof.
  destruct l as [| []]; cbn [round_nearest_even];
    try destruct (Z.even m); split; try lia; try discriminate;
    intros; reflexivity.
Qed.


Lemma representable_inv my ey :
  representable my ey ->
  -1074 <= ey <= 971 /\
  Zpos (digits2_pos my) <= 53 /\
  Z.max (Zpos (digits2_pos my) + ey - 53) (-1074) <= ey.
Proof.
  intros [Hm He].
  pose proof (digits2_pos_bounds my) as Hd.
  assert (Hlt : 2 ^ (Zpos (digits2_pos my) - 1) < 2 ^ 53) by lia.
  apply pow2_lt_inv in Hlt; lia.
Qed.

Lemma bounded_representable my ey :
  bounded PyFloat.prec PyFloat.emax my ey = true -> representable my ey.
Proof.
  unfold bounded, canonical_mantissa. rewrite andb_true_iff, fexp_eq.
  intros [Hc He]. apply Z.eqb_eq in Hc. apply Z.leb_le in He.
  change (PyFloat.emax - PyFloat.prec) with 971 in He.
  pose proof (digits2_pos_bounds my) as Hd.
  assert (Hdig : Zpos (digits2_pos my) <= 53) by lia.
  split; [| lia].
  apply Z.lt_le_trans with (2 ^ Zpos (digits2_pos my)); [lia |].
  apply Z.pow_le_mono_r; lia.
Qed.

(** A non-negative [m * 2^e] below [my * 2^ey] has no more binary digits
    before the point. *)
Lemma digits_le_of_le m e my ey :
  0 <= m -> e <= ey -> m <= Zpos my * 2 ^ (ey - e) ->
  Zdigits2 m + e <= Zpos (digits2_pos my) + ey.
Proof.
  intros Hm He Hle.
  destruct m as [| p | p]; cbn [Zdigits2]; [lia | | lia].
  pose proof (digits2_pos_bounds p) as Hp.
  pose proof (digits2_pos_bounds my) as Hmy.
  assert (Hpow : 0 < 2 ^ (ey - e)) by (apply Z.pow_pos_nonneg; lia).
  assert (Hlt : 2 ^ (Zpos (digits2_pos p) - 1) <
                2 ^ (Zpos (digits2_pos my) + (ey - e))).
  { rewrite Z.pow_add_r by lia.
    apply Z.le_lt_trans with (Zpos my * 2 ^ (ey - e)); [lia |].
    apply Z.mul_lt_mono_pos_r; lia. }
  apply pow2_lt_inv in Hlt; lia.
Qed.

(** Rounding a value that lies at or below a representable [my * 2^ey]
    gives a zero or a finite float that does not exceed it.  The value
    rounded lies in [[mx * 2^ex, (mx + 1) * 2^ex)), and exactly at the
    lower end when [lx] is [loc_Exact]. *)
Lemma binary_round_aux_le s mx ex lx my ey :
  0 <= mx -> ex <= ey ->
  representable my ey ->
  (mx < Zpos my * 2 ^ (ey - ex) \/
   (mx = Zpos my * 2 ^ (ey - ex) /\ lx = loc_Exact)) ->
  binary_round_aux PyFloat.prec PyFloat.emax s mx ex lx = S754_zero s \/
  exists m e,
    binary_round_aux PyFloat.prec PyFloat.emax s mx ex lx =
      S754_finite s m e /\
    ex <= e /\ e <= ey /\
    Zpos m * 2 ^ (e - ex) <= Zpos my * 2 ^ (ey - ex).
Proof.
  intros Hmx Hex Hb Hle.
  destruct (representable_inv _ _ Hb) as (Hey & Hdy & Hcan).
  assert (HleY : mx <= Zpos my * 2 ^ (ey - ex)) by lia.
  pose proof (digits_le_of_le mx ex my ey Hmx Hex HleY) as Hdx.
  unfold binary_round_aux, shr_fexp.
  (* the first shift *)
  destruct (shr_spec mx lx ex
              (fexp PyFloat.prec PyFloat.emax (Zdigits2 mx + ex) - ex) Hmx)
    as (He1 & Hm1 & Hx1).
  destruct (shr (shr_record_of_loc mx lx) ex _) as [mrs1 e1].
  cbn [fst snd] in He1, Hm1, Hx1.
  rewrite fexp_eq in He1, Hm1, Hx1.
  set (k1 := Z.max 0 (Z.max (Zdigits2 mx + ex - 53) (-1074) - ex)) in *.
  assert (Hk1 : 0 <= k1) by (unfold k1; lia).
  assert (HA : e1 <= ey) by (unfold k1 in *; lia).
  assert (Hp1 : 0 < 2 ^ k1) by (apply Z.pow_pos_nonneg; lia).
  assert (HY : 2 ^ (ey - ex) = 2 ^ (ey - e1) * 2 ^ k1).
  { rewrite <- Z.pow_add_r by lia. f_equal. lia. }
  assert (Hpy1 : 0 < 2 ^ (ey - e1)) by (apply Z.pow_pos_nonneg; lia).
  destruct (round_nearest_even_bounds (shr_m mrs1)
              (loc_of_shr_record mrs1)) as [Hr1 Hr1x].
  set (m1 := round_nearest_even (shr_m mrs1) (loc_of_shr_record mrs1)) in *.
  assert (Hdiv1 : mx / 2 ^ k1 <= Zpos my * 2 ^ (ey - e1)).
  { apply Z.div_le_upper_bound; [lia |]. rewrite HY in HleY. lia. }
  assert (Hnn1 : 0 <= mx / 2 ^ k1) by (apply Z.div_pos; lia).
  assert (HB : m1 <= Zpos my * 2 ^ (ey - e1)).
  { destruct (Z_lt_le_dec (mx / 2 ^ k1) (Zpos my * 2 ^ (ey - e1)))
      as [Hlt | Hge]; [lia |].
    assert (Heq : mx / 2 ^ k1 = Zpos my * 2 ^ (ey - e1)) by lia.
    pose proof (Z.mul_div_le mx (2 ^ k1) Hp1) as Hmd.
    assert (HmxY : mx = Zpos my * 2 ^ (ey - ex)).
    { rewrite HY. rewrite Heq in Hmd. lia. }
    destruct Hle as [Hlt | [_ Hlx]]; [lia |].
    assert (Hmod : mx mod 2 ^ k1 = 0).
    { rewrite HmxY, HY, Z.mul_assoc. apply Z.mod_mul. lia. }
    rewrite (Hr1x (Hx1 Hlx Hmod)). lia. }
  assert (Hm1nn : 0 <= m1) by lia.
  (* the second shift *)
  destruct (shr_spec m1 loc_Exact e1
              (fexp PyFloat.prec PyFloat.emax (Zdigits2 m1 + e1) - e1)
              Hm1nn) as (He2 & Hm2 & _).
  pose proof (digits_le_of_le m1 e1 my ey Hm1nn HA HB) as Hd1.
  destruct (shr (shr_record_of_loc m1 loc_Exact) e1 _) as [mrs2 e2].
  cbn [fst snd] in He2, Hm2.
  rewrite fexp_eq in He2, Hm2.
  set (k2 := Z.max 0 (Z.max (Zdigits2 m1 + e1 - 53) (-1074) - e1)) in *.
  assert (Hk2 : 0 <= k2) by (unfold k2; lia).
  assert (HC : e2 <= ey) by (unfold k2 in *; lia).
  assert (Hp2 : 0 < 2 ^ k2) by (apply Z.pow_pos_nonneg; lia).
  assert (Hnn2 : 0 <= m1 / 2 ^ k2) by (apply Z.div_pos; lia).
  destruct (shr_m mrs2) as [| m | m] eqn:Hm2v; [left; reflexivity | | lia].
  right. exists m, e2.
  change (PyFloat.emax - PyFloat.prec) with 971.
  replace (e2 <=? 971) with true by (symmetry; apply Z.leb_le; lia).
  repeat split; try lia.
  replace (e2 - ex) with (k2 + k1) by lia.
  rewrite Z.pow_add_r, HY by lia.
  pose proof (Z.mul_div_le m1 (2 ^ k2) Hp2) as Hmd.
  rewrite <- Hm2 in Hmd.
  rewrite !Z.mul_assoc.
  apply Z.mul_le_mono_nonneg_r; lia.
Qed.

(** Rounding a non-negative mantissa gives a zero, a finite float or an
    infinity of the given sign. *)
Lemma binary_round_aux_cases s mx ex lx :
  0 <= mx ->
  binary_round_aux PyFloat.prec PyFloat.emax s mx ex lx = S754_zero s \/
  (exists m e,
      binary_round_aux PyFloat.prec PyFloat.emax s mx ex lx =
        S754_finite s m e) \/
  binary_round_aux PyFloat.prec PyFloat.emax s mx ex lx = S754_infinity s.
Proof.
  intros Hmx. unfold binary_round_aux, shr_fexp.
  destruct (shr_spec mx lx ex
              (fexp PyFloat.prec PyFloat.emax (Zdigits2 mx + ex) - ex) Hmx)
    as (_ & Hm1 & _).
  destruct (shr (shr_record_of_loc mx lx) ex _) as [mrs1 e1].
  cbn [fst snd] in Hm1.
  destruct (round_nearest_even_bounds (shr_m mrs1)
              (loc_of_shr_record mrs1)) as [Hr1 _].
  set (m1 := round_nearest_even (shr_m mrs1) (loc_of_shr_record mrs1)) in *.
  assert (Hnn1 : 0 <= mx / 2 ^ Z.max 0
            (fexp PyFloat.prec PyFloat.emax (Zdigits2 mx + ex) - ex)).
  { apply Z.div_pos; [lia |]. apply Z.pow_pos_nonneg; lia. }
  assert (Hm1nn : 0 <= m1) by lia.
  destruct (shr_spec m1 loc_Exact e1
              (fexp PyFloat.prec PyFloat.emax (Zdigits2 m1 + e1) - e1)
              Hm1nn) as (_ & Hm2 & _).
  destruct (shr (shr_record_of_loc m1 loc_Exact) e1 _) as [mrs2 e2].
  cbn [fst snd] in Hm2.
  assert (Hnn2 : 0 <= shr_m mrs2).
  { rewrite Hm2. apply Z.div_pos; [lia |]. apply Z.pow_pos_nonneg; lia. }
  destruct (shr_m mrs2) as [| m | m]; [left; reflexivity | | lia].
  right. destruct (e2 <=? PyFloat.emax - PyFloat.prec).
  - left. exists m, e2. reflexivity.
  - right. reflexivity.
Qed.


Lemma binary_round_aux_below s mx ex lx my ey :
  0 <= mx -> ex <= ey ->
  representable my ey ->
  (mx < Zpos my * 2 ^ (ey - ex) \/
   (mx = Zpos my * 2 ^ (ey - ex) /\ lx = loc_Exact)) ->
  binary_round_aux PyFloat.prec PyFloat.emax s mx ex lx = S754_zero s \/
  exists m e,
    binary_round_aux PyFloat.prec PyFloat.emax s mx ex lx =
      S754_finite s m e /\
    e <= ey /\ Zpos m <= Zpos my * 2 ^ (ey - e).
Proof.
  intros Hmx Hex Hb Hle.
  destruct (binary_round_aux_le s mx ex lx my ey Hmx Hex Hb Hle)
    as [Hz | (m & e & HR & He1 & He2 & Hv)]; [left; exact Hz |].
  right. exists m, e. repeat split; try assumption.
  assert (Hp : 0 < 2 ^ (e - ex)) by (apply Z.pow_pos_nonneg; lia).
  replace (ey - ex) with ((ey - e) + (e - ex)) in Hv by lia.
  rewrite Z.pow_add_r, Z.mul_assoc in Hv by lia.
  apply Z.mul_le_mono_pos_r in Hv; assumption.
Qed.

(** The division of two positive integers, as one rounding. *)
Lemma SFdiv_ints sa a sb b :
  SFdiv PyFloat.prec PyFloat.emax (S754_finite sa a 0) (S754_finite sb b 0) =
  let e := Z.min (fexp PyFloat.prec PyFloat.emax
                    (Zpos (digits2_pos a) - Zpos (digits2_pos b))) 0 in
  binary_round_aux PyFloat.prec PyFloat.emax (xorb sa sb)
    (Zpos a * 2 ^ (- e) / Zpos b) e
    (new_location (Zpos b) ((Zpos a * 2 ^ (- e)) mod Zpos b)).
Proof.
  cbv zeta. unfold SFdiv, SFdiv_core_binary. cbn [Zdigits2].
  rewrite !Z.add_0_r. change (0 - 0) with 0.
  set (e := Z.min _ 0).
  assert (He : e <= 0) by (unfold e; lia).
  assert (Hm : match 0 - e with
               | 0 => Zpos a
               | Zpos _ => Z.shiftl (Zpos a) (0 - e)
               | Zneg _ => 0
               end = Zpos a * 2 ^ (- e)).
  { replace (0 - e) with (- e) by lia.
    destruct (- e) as [| p | p] eqn:Hs; [cbn; lia | | lia].
    apply Z.shiftl_mul_pow2. lia. }
  rewrite Hm. unfold Z.div, Z.modulo.
  destruct (Z.div_eucl (Zpos a * 2 ^ (- e)) (Zpos b)) as [q r].
  reflexivity.
Qed.

Lemma new_location_exact nb : new_location nb 0 = loc_Exact.
Proof.
  unfold new_location, new_location_even, new_location_odd.
  destruct (Z.even nb); reflexivity.
Qed.

(** A quotient of positive integers that does not exceed a representable
    [my * 2^ey] rounds to a zero or to a finite float that does not
    exceed it: the division does not overflow. *)
Lemma SFdiv_below sa a sb b my ey :
  representable my ey ->
  Zpos a * 2 ^ Z.max 0 (- ey) <= Zpos b * Zpos my * 2 ^ Z.max 0 ey ->
  SFdiv PyFloat.prec PyFloat.emax (S754_finite sa a 0) (S754_finite sb b 0)
    = S754_zero (xorb sa sb) \/
  exists m e,
    SFdiv PyFloat.prec PyFloat.emax (S754_finite sa a 0)
      (S754_finite sb b 0) = S754_finite (xorb sa sb) m e /\
    e <= ey /\ Zpos m <= Zpos my * 2 ^ (ey - e).
Proof.
  intros Hb Hle. rewrite SFdiv_ints. cbv zeta.
  destruct (representable_inv _ _ Hb) as (Hey & Hdy & Hcan).
  pose proof (digits2_pos_bounds a) as Ha.
  pose proof (digits2_pos_bounds b) as Hbb.
  pose proof (digits2_pos_bounds my) as Hmy.
  set (da := Zpos (digits2_pos a)) in *.
  set (db := Zpos (digits2_pos b)) in *.
  set (dy := Zpos (digits2_pos my)) in *.
  rewrite fexp_eq.
  set (e := Z.min (Z.max (da - db - 53) (-1074)) 0).
  set (al := Z.max 0 (- ey)) in *. set (be := Z.max 0 ey) in *.
  assert (Hal : 0 <= al) by (unfold al; lia).
  assert (Hbe : 0 <= be) by (unfold be; lia).
  assert (Hpal : 0 < 2 ^ al) by (apply Z.pow_pos_nonneg; lia).
  assert (Hpbe : 0 < 2 ^ be) by (apply Z.pow_pos_nonneg; lia).
  (* the digits of the quotient *)
  assert (Hdig : da - db <= dy + ey).
  { assert (Hlt : 2 ^ (da - 1 + al) < 2 ^ (db + dy + be)).
    { rewrite !Z.pow_add_r by lia.
      apply Z.le_lt_trans with (Zpos a * 2 ^ al).
      - apply Z.mul_le_mono_nonneg_r; lia.
      - apply Z.le_lt_trans with (Zpos b * Zpos my * 2 ^ be); [lia |].
        apply Z.mul_lt_mono_pos_r; [lia |].
        apply Z.mul_lt_mono_nonneg; lia. }
    apply pow2_lt_inv in Hlt; [| lia]. unfold al, be in Hlt. lia. }
  assert (He0 : e <= 0) by (unfold e; lia).
  assert (Hey' : e <= ey) by (unfold e; lia).
  assert (Hs : 0 <= - e - al) by (unfold al; lia).
  assert (Hps : 0 < 2 ^ (- e - al)) by (apply Z.pow_pos_nonneg; lia).
  assert (Hscale : Zpos a * 2 ^ (- e) <=
                   Zpos b * (Zpos my * 2 ^ (ey - e))).
  { replace (- e) with (al + (- e - al)) by lia.
    replace (ey - e) with (be + (- e - al)) by (unfold al, be; lia).
    rewrite !Z.pow_add_r by lia.
    rewrite !Z.mul_assoc.
    apply Z.mul_le_mono_nonneg_r; lia. }
  assert (Hq : Zpos a * 2 ^ (- e) / Zpos b <= Zpos my * 2 ^ (ey - e)).
  { apply Z.div_le_upper_bound; [lia | exact Hscale]. }
  apply binary_round_aux_below; try assumption.
  - apply Z.div_pos; [| lia].
    apply Z.mul_nonneg_nonneg; [lia |]. apply Z.pow_nonneg. lia.
  - destruct (Z_lt_le_dec (Zpos a * 2 ^ (- e) / Zpos b)
                (Zpos my * 2 ^ (ey - e))) as [Hlt | Hge];
      [left; exact Hlt | right].
    split; [lia |].
    assert (Hmod : (Zpos a * 2 ^ (- e)) mod Zpos b = 0).
    { pose proof (Z.div_mod (Zpos a * 2 ^ (- e)) (Zpos b) ltac:(lia)).
      pose proof (Z.mod_pos_bound (Zpos a * 2 ^ (- e)) (Zpos b)
                    ltac:(lia)).
      nia. }
    rewrite Hmod. apply new_location_exact.
Qed.

End RoundingFacts.

(* ================================================================== *)
(** ** The arithmetic of the card *)

Lemma of_int_420 :
  PyFloat.of_int 420 = S754_finite false 7388718138654720 (-44).
Proof. vm_compute. reflexivity. Qed.

Lemma of_int_50 :
  PyFloat.of_int 50 = S754_finite false 7036874417766400 (-47).
Proof. vm_compute. reflexivity. Qed.

(** A product of a float that is at most 1 with a representable [c] is a
    zero or a finite float that does not exceed [c]. *)
Lemma SFmul_below sx mq eq sc mc ec :
  eq <= 0 -> Zpos mq <= 2 ^ (- eq) ->
  representable mc ec ->
  PyFloat.mul (S754_finite sx mq eq) (S754_finite sc mc ec) =
    S754_zero (xorb sx sc) \/
  exists m e,
    PyFloat.mul (S754_finite sx mq eq) (S754_finite sc mc ec) =
      S754_finite (xorb sx sc) m e /\
    e <= ec /\ Zpos m <= Zpos mc * 2 ^ (ec - e).
Proof.
  intros Heq Hmq Hb. unfold PyFloat.mul. cbn [SFmul].
  apply binary_round_aux_below; try assumption; try lia.
  replace (ec - (eq + ec)) with (- eq) by lia.
  rewrite Pos2Z.inj_mul.
  destruct (Z_lt_le_dec (Zpos mq) (2 ^ (- eq))) as [Hlt | Hge].
  - left. rewrite (Z.mul_comm (Zpos mq)).
    apply Z.mul_lt_mono_pos_l; lia.
  - right. split; [| reflexivity].
    assert (Zpos mq = 2 ^ (- eq)) by lia. lia.
Qed.

Lemma leb_of_below m e mc ec :
  e <= ec -> Zpos m <= Zpos mc * 2 ^ (ec - e) ->
  PyFloat.leb (S754_finite false m e) (S754_finite false mc ec) = true.
Proof.
  intros He Hm. unfold PyFloat.leb, SFleb, SFcompare.
  destruct (Z.compare_spec e ec) as [-> | Hlt | Hgt];
    [| reflexivity | lia].
  rewrite Z.sub_diag, Z.mul_1_r in Hm.
  change (Pos.compare_cont Eq m mc) with (Pos.compare m mc).
  destruct (Pos.compare_spec m mc) as [-> | Hlt | Hgt];
    [reflexivity | reflexivity | lia].
Qed.

(** [<=] is total away from NaN. *)
Lemma leb_total_finite x mc ec :
  x <> S754_nan ->
  PyFloat.leb x (S754_finite false mc ec) = false ->
  PyFloat.leb (S754_finite false mc ec) x = true.
Proof.
  intros Hnan. unfold PyFloat.leb, SFleb, SFcompare.
  destruct x as [s | s | | s m e]; try congruence.
  - destruct s; intros H; [discriminate H | reflexivity].
  - destruct s; [intros H; discriminate H |].
    rewrite (Z.compare_antisym e ec).
    destruct (e ?= ec); cbn [CompOpp]; intros H;
      try discriminate H; try reflexivity.
    change (Pos.compare_cont Eq m mc) with (Pos.compare m mc) in H.
    change (Pos.compare_cont Eq mc m) with (Pos.compare mc m).
    rewrite (Pos.compare_antisym m mc).
    destruct (m ?= mc)%positive; cbn [CompOpp]; try discriminate H;
      reflexivity.
Qed.

(** The quotient of two [int]s, when there is one, is a zero or a finite
    float. *)
Lemma true_divide_cases a b q :
  PyFloat.true_divide a b = inr q ->
  (exists s, q = S754_zero s) \/ (exists s m e, q = S754_finite s m e).
Proof.
  unfold PyFloat.true_divide.
  destruct b as [| b | b]; [discriminate | |];
    (destruct a as [| a | a];
     [ intros H; inversion H; left; eexists; reflexivity | | ]).
  all: cbn [Z.abs Z.to_pos].
  all: rewrite SFdiv_ints; cbv zeta.
  all: match goal with
       | |- context [binary_round_aux ?p ?em ?s ?m ?e ?l] =>
           assert (Hnn : 0 <= m)
             by (apply Z.div_pos; [| lia];
                 apply Z.mul_nonneg_nonneg; [lia |];
                 apply Z.pow_nonneg; lia);
           destruct (binary_round_aux_cases s m e l Hnn)
             as [-> | [(m' & e' & ->) | ->]]
       end.
  all: intros H; inversion H; subst.
  all: first [ left; eexists; reflexivity
             | right; do 3 eexists; reflexivity ].
Qed.

(** The product of such a quotient with a finite float is not a NaN. *)
Lemma mul_not_nan q sc mc ec :
  (exists s, q = S754_zero s) \/ (exists s m e, q = S754_finite s m e) ->
  PyFloat.mul q (S754_finite sc mc ec) <> S754_nan.
Proof.
  intros [(s & ->) | (s & m & e & ->)]; unfold PyFloat.mul; cbn [SFmul].
  - discriminate.
  - destruct (binary_round_aux_cases (xorb s sc) (Zpos (m * mc)) (e + ec)
                loc_Exact ltac:(lia)) as [-> | [(m' & e' & ->) | ->]];
      discriminate.
Qed.

(** The quotient of [0 < a <= b] exists and is a zero or at most 1. *)
Lemma true_divide_le_one a b :
  (a <= b)%positive ->
  PyFloat.true_divide (Zpos a) (Zpos b) = inr (S754_zero false) \/
  exists m e,
    PyFloat.true_divide (Zpos a) (Zpos b) = inr (S754_finite false m e) /\
    e <= 0 /\ Zpos m <= 2 ^ (- e).
Proof.
  intros Hab. unfold PyFloat.true_divide. cbn [Z.abs Z.to_pos Z.ltb Z.compare].
  destruct (SFdiv_below false a false b 4503599627370496 (-52))
    as [-> | (m & e & -> & He & Hm)].
  - split; [reflexivity | lia].
  - change (2 ^ Z.max 0 (- -52)) with 4503599627370496.
    change (2 ^ Z.max 0 (-52)) with 1. lia.
  - left. reflexivity.
  - right. exists m, e. split; [reflexivity |]. split; [lia |].
    replace (- e) with (52 + (-52 - e)) by lia.
    rewrite Z.pow_add_r by lia. exact Hm.
Qed.

(** ** The width of the bar *)

(** C8. The sample points: no XP gives the floor 50, full XP gives 420 and
    half of it gives 210. *)
Theorem bar_exp_sample_points :
  bar_exp 0 100 = inr (NInt 50) /\
  bar_exp 100 100 = inr (NFloat (PyFloat.of_int 420)) /\
  bar_exp 50 100 = inr (NFloat (PyFloat.of_int 210)).
Proof. vm_compute. repeat split; reflexivity. Qed.

Example bar_exp_quarter : bar_exp 250 1000 = inr (NFloat (PyFloat.of_int 105)).
Proof. vm_compute. reflexivity. Qed.

Example bar_exp_double : bar_exp 200 100 = inr (NFloat (PyFloat.of_int 840)).
Proof. vm_compute. reflexivity. Qed.

(** C1, as stated, fails: with 200 XP out of 100 the width is 840. *)
Lemma bar_exp_exceeds_420 :
  ~ (forall cur mx,
        0 < mx ->
        exists v, bar_exp cur mx = inr v /\
                  num_leb (NInt 50) v = true /\
                  num_leb v (NInt 420) = true).
Proof.
  intros H. destruct (H 200 100 ltac:(lia)) as (v & Hv & _ & Hle).
  rewrite bar_exp_double in Hv. inversion Hv; subst.
  vm_compute in Hle. discriminate.
Qed.

Lemma bar_exp_inr cur mx v :
  bar_exp cur mx = inr v ->
  exists q,
    PyFloat.true_divide cur mx = inr q /\
    v = if PyFloat.leb (PyFloat.mul q (PyFloat.of_int 420)) (PyFloat.of_int 50)
        then NInt 50
        else NFloat (PyFloat.mul q (PyFloat.of_int 420)).
Proof.
  unfold bar_exp.
  destruct (PyFloat.true_divide cur mx) as [[|] | q]; cbn [of_arith];
    try discriminate.
  intros H. exists q. split; [reflexivity |].
  destruct (PyFloat.leb _ _); inversion H; reflexivity.
Qed.

Lemma bar_exp_at_least_50 cur mx v :
  bar_exp cur mx = inr v -> num_leb (NInt 50) v = true.
Proof.
  intros H. apply bar_exp_inr in H. destruct H as (q & Hq & ->).
  destruct (PyFloat.leb (PyFloat.mul q (PyFloat.of_int 420))
              (PyFloat.of_int 50)) eqn:Hleb.
  - vm_compute. reflexivity.
  - unfold num_leb. cbn [num_float]. rewrite of_int_50 in *.
    apply leb_total_finite; [| exact Hleb].
    rewrite of_int_420. apply mul_not_nan.
    exact (true_divide_cases _ _ _ Hq).
Qed.

(** What a returning call drew with [rounded_rectangle]: the track, 420
    wide, and over it the bar, as wide as [bar_exp] says. *)
Lemma create_draws_bar env c buf st' :
  run_create env c = (inr buf, st') ->
  exists im bar,
    background (card st') = VImage im /\
    bar_exp (current_xp c) (max_xp c) = inr bar /\
    rectangles im =
      [(NInt 0, NInt 0, NInt 420, NInt 50, ColorRGBA 255 255 255 50);
       (NInt 0, NInt 0, bar, NInt 50, ColorName (bar_color c))].
Proof.
  intros Hrun. apply create_inr in Hrun.
  destruct Hrun as (bg & av & st2 & _ & _ & Hrb & Hra & Hcard & Hcomp).
  apply compose_inr in Hcomp.
  destruct Hcomp as (im & cur & mx & lvl & bar & Hbg & _ & _ &
                     _ & _ & _ & Hbar & _ & Hrect).
  rewrite Hcard in Hbar, Hrect. cbn in Hbar.
  exists im, bar. repeat split; try assumption.
  rewrite Hrect, Hrb, Hra. reflexivity.
Qed.

(** C1, amended. For [max_xp > 0], whenever the width is computed it is the
    product of the quotient with 420, replaced by 50 when the product is at
    most 50: it is never below 50, and nothing bounds it from above.  For
    [0 <= current_xp <= max_xp] the width is computed and lies between 50
    and 420.  A call of [create] that returns has drawn the bar from 0 to
    that width. *)
Theorem bar_exp_floor_and_range (cur mx : Z) (Hmx : 0 < mx) :
  (forall v,
      bar_exp cur mx = inr v ->
      num_leb (NInt 50) v = true /\
      exists q,
        PyFloat.true_divide cur mx = inr q /\
        v = if PyFloat.leb (PyFloat.mul q (PyFloat.of_int 420))
                 (PyFloat.of_int 50)
            then NInt 50
            else NFloat (PyFloat.mul q (PyFloat.of_int 420))) /\
  (0 <= cur <= mx ->
   exists v, bar_exp cur mx = inr v /\
             num_leb (NInt 50) v = true /\
             num_leb v (NInt 420) = true) /\
  (forall env c buf st',
      current_xp c = cur -> max_xp c = mx ->
      run_create env c = (inr buf, st') ->
      exists im v,
        background (card st') = VImage im /\
        bar_exp cur mx = inr v /\
        num_leb (NInt 50) v = true /\
        rectangles im =
          [(NInt 0, NInt 0, NInt 420, NInt 50, ColorRGBA 255 255 255 50);
           (NInt 0, NInt 0, v, NInt 50, ColorName (bar_color c))]).
Proof.
  split; [| split].
  - intros v Hv. split.
    + exact (bar_exp_at_least_50 _ _ _ Hv).
    + exact (bar_exp_inr _ _ _ Hv).
  - intros [H0 Hle].
    assert (Hex : exists v, bar_exp cur mx = inr v /\
                            num_leb v (NInt 420) = true).
    { destruct mx as [| b | b]; try lia.
      destruct cur as [| a | a]; try lia.
      - exists (NInt 50). split; vm_compute; reflexivity.
      - unfold bar_exp.
        destruct (true_divide_le_one a b ltac:(lia))
          as [-> | (m & e & -> & He & Hm)]; cbn [of_arith].
        + exists (NInt 50). split; vm_compute; reflexivity.
        + rewrite of_int_420.
          destruct (SFmul_below false m e false 7388718138654720 (-44)
                      He Hm ltac:(split; [reflexivity | lia]))
            as [-> | (m' & e' & -> & He' & Hm')].
          * exists (NInt 50). split; vm_compute; reflexivity.
          * cbn [xorb].
            destruct (PyFloat.leb (S754_finite false m' e')
                        (PyFloat.of_int 50)).
            -- exists (NInt 50). split; vm_compute; reflexivity.
            -- eexists. split; [reflexivity |].
               unfold num_leb. cbn [num_float]. rewrite of_int_420.
               apply leb_of_below; assumption. }
    destruct Hex as (v & Hv & Hup).
    exists v. repeat split; try assumption.
    exact (bar_exp_at_least_50 _ _ _ Hv).
  - intros env c buf st' Hcur Hmax Hrun.
    destruct (create_draws_bar env c buf st' Hrun) as (im & v & Hbg & Hv & Hr).
    rewrite Hcur, Hmax in Hv.
    exists im, v. repeat split; try assumption.
    exact (bar_exp_at_least_50 _ _ _ Hv).
Qed.

Lemma bar_exp_floor_and_range_witness :
  exists v, bar_exp 250 1000 = inr v /\
            num_leb (NInt 50) v = true /\
            num_leb v (NInt 420) = true.
Proof.
  apply (proj1 (proj2 (bar_exp_floor_and_range 250 1000 ltac:(lia)))). lia.
Defined.

(** ** Rounding from below *)

Lemma digits_le_53 m : 0 < m -> m < 2 ^ 53 -> Zdigits2 m <= 53.
Proof.
  intros H0 Hlt. destruct m as [| p | p]; try lia. cbn [Zdigits2].
  pose proof (digits2_pos_bounds p) as Hp.
  assert (H : 2 ^ (Zpos (digits2_pos p) - 1) < 2 ^ 53) by lia.
  apply pow2_lt_inv in H; lia.
Qed.

(** Rounding a value that lies at or above a representable [my * 2^ey]
    gives an infinity or a finite float that is not below it. *)
Lemma binary_round_aux_ge s mx ex lx my ey :
  0 <= mx -> ex <= ey ->
  representable my ey ->
  Zpos my * 2 ^ (ey - ex) <= mx ->
  binary_round_aux PyFloat.prec PyFloat.emax s mx ex lx = S754_infinity s \/
  exists m e,
    binary_round_aux PyFloat.prec PyFloat.emax s mx ex lx =
      S754_finite s m e /\
    ex <= e /\
    Zpos my * 2 ^ (ey - ex) <= Zpos m * 2 ^ (e - ex).
Proof.
  intros Hmx Hex Hb Hle.
  destruct (representable_inv _ _ Hb) as (Hey & Hdy & Hcan).
  destruct Hb as [Hmy53 _].
  assert (HpY : 0 < 2 ^ (ey - ex)) by (apply Z.pow_pos_nonneg; lia).
  assert (Hmxpos : 0 < mx) by nia.
  destruct mx as [| px | px]; try lia.
  pose proof (digits2_pos_bounds px) as Hdx.
  unfold binary_round_aux, shr_fexp. cbn [Zdigits2].
  set (dx := Zpos (digits2_pos px)) in *.
  (* the first shift *)
  destruct (shr_spec (Zpos px) lx ex
              (fexp PyFloat.prec PyFloat.emax (dx + ex) - ex) Hmx)
    as (He1 & Hm1 & _).
  destruct (shr (shr_record_of_loc (Zpos px) lx) ex _) as [mrs1 e1].
  cbn [fst snd] in He1, Hm1.
  rewrite fexp_eq in He1, Hm1.
  set (k1 := Z.max 0 (Z.max (dx + ex - 53) (-1074) - ex)) in *.
  assert (Hk1 : 0 <= k1) by (unfold k1; lia).
  assert (Hp1 : 0 < 2 ^ k1) by (apply Z.pow_pos_nonneg; lia).
  destruct (round_nearest_even_bounds (shr_m mrs1)
              (loc_of_shr_record mrs1)) as [Hr1 _].
  set (m1 := round_nearest_even (shr_m mrs1) (loc_of_shr_record mrs1)) in *.
  assert (He1min : -1074 <= e1) by (unfold k1 in *; lia).
  (* the rounded mantissa has at most 53 bits, or is [2^53] *)
  assert (HU : m1 <= 2 ^ 53).
  { assert (Hlt : Zpos px / 2 ^ k1 < 2 ^ 53).
    { apply Z.div_lt_upper_bound; [lia |].
      rewrite <- Z.pow_add_r by lia.
      apply Z.lt_le_trans with (2 ^ dx); [lia |].
      apply Z.pow_le_mono_r; [lia |]. unfold k1. lia. }
    lia. }
  (* it is not below [my * 2^ey] *)
  assert (HL : Zpos my * 2 ^ (ey - ex) <= m1 * 2 ^ k1).
  { destruct (Z_le_gt_dec e1 ey) as [Hle1 | Hgt1].
    - assert (HY : 2 ^ (ey - ex) = 2 ^ (ey - e1) * 2 ^ k1).
      { rewrite <- Z.pow_add_r by lia. f_equal. lia. }
      assert (Hq : Zpos my * 2 ^ (ey - e1) <= Zpos px / 2 ^ k1).
      { apply Z.div_le_lower_bound; [lia |]. rewrite HY in Hle. lia. }
      rewrite HY, Z.mul_assoc.
      apply Z.mul_le_mono_nonneg_r; lia.
    - assert (Hk : k1 = dx - 53) by (unfold k1 in *; lia).
      assert (Hq : 2 ^ 52 <= Zpos px / 2 ^ k1).
      { apply Z.div_le_lower_bound; [lia |].
        rewrite <- Z.pow_add_r by lia.
        replace (k1 + 52) with (dx - 1) by lia. lia. }
      apply Z.le_trans with (2 ^ 52 * 2 ^ k1);
        [| apply Z.mul_le_mono_nonneg_r; lia].
      rewrite <- Z.pow_add_r by lia.
      apply Z.le_trans with (2 ^ 53 * 2 ^ (ey - ex));
        [apply Z.mul_le_mono_nonneg_r; lia |].
      rewrite <- Z.pow_add_r by lia.
      apply Z.pow_le_mono_r; lia. }
  assert (Hm1pos : 0 < m1) by nia.
  (* the second shift loses nothing *)
  destruct (shr_spec m1 loc_Exact e1
              (fexp PyFloat.prec PyFloat.emax (Zdigits2 m1 + e1) - e1)
              ltac:(lia)) as (He2 & Hm2 & _).
  destruct (shr (shr_record_of_loc m1 loc_Exact) e1 _) as [mrs2 e2].
  cbn [fst snd] in He2, Hm2.
  rewrite fexp_eq in He2, Hm2.
  set (k2 := Z.max 0 (Z.max (Zdigits2 m1 + e1 - 53) (-1074) - e1)) in *.
  assert (Hk2 : 0 <= k2) by (unfold k2; lia).
  assert (Hexact : shr_m mrs2 * 2 ^ k2 = m1).
  { destruct (Z_lt_le_dec m1 (2 ^ 53)) as [Hlt | Hge].
    - pose proof (digits_le_53 m1 Hm1pos Hlt) as Hd.
      assert (Hk : k2 = 0) by (unfold k2; lia).
      rewrite Hm2, Hk. change (2 ^ 0) with 1.
      rewrite Z.div_1_r. lia.
    - assert (Hm : m1 = 2 ^ 53) by lia.
      assert (Hk : k2 = 1).
      { unfold k2. rewrite Hm.
        change (Zdigits2 (2 ^ 53)) with 54. lia. }
      rewrite Hm2, Hk, Hm. reflexivity. }
  assert (Hp2 : 0 < 2 ^ k2) by (apply Z.pow_pos_nonneg; lia).
  destruct (shr_m mrs2) as [| m | m] eqn:Hm2v; [lia | | lia].
  destruct (e2 <=? PyFloat.emax - PyFloat.prec);
    [right | left; reflexivity].
  exists m, e2. split; [reflexivity |]. split; [lia |].
  replace (e2 - ex) with (k2 + k1) by lia.
  rewrite Z.pow_add_r, Z.mul_assoc, Hexact by lia. exact HL.
Qed.

Lemma SFdiv_above sa a sb b my ey :
  representable my ey -> ey <= 0 ->
  Zpos (digits2_pos a) - Zpos (digits2_pos b) - 53 <= ey ->
  Zpos b * Zpos my <= Zpos a * 2 ^ (- ey) ->
  SFdiv PyFloat.prec PyFloat.emax (S754_finite sa a 0) (S754_finite sb b 0)
    = S754_infinity (xorb sa sb) \/
  exists m e,
    SFdiv PyFloat.prec PyFloat.emax (S754_finite sa a 0)
      (S754_finite sb b 0) = S754_finite (xorb sa sb) m e /\
    exists ex, ex <= e /\ ex <= ey /\
               Zpos my * 2 ^ (ey - ex) <= Zpos m * 2 ^ (e - ex).
Proof.
  intros Hb Hey0 Hdig Hle. rewrite SFdiv_ints. cbv zeta.
  destruct (representable_inv _ _ Hb) as (Hey & _ & _).
  rewrite fexp_eq.
  set (e := Z.min (Z.max (Zpos (digits2_pos a) - Zpos (digits2_pos b) - 53)
                     (-1074)) 0).
  assert (He : e <= ey) by (unfold e; lia).
  assert (He0 : e <= 0) by (unfold e; lia).
  assert (Hp : 0 < 2 ^ (ey - e)) by (apply Z.pow_pos_nonneg; lia).
  assert (Hpe : 0 < 2 ^ (- e)) by (apply Z.pow_pos_nonneg; lia).
  assert (Hq : Zpos my * 2 ^ (ey - e) <= Zpos a * 2 ^ (- e) / Zpos b).
  { apply Z.div_le_lower_bound; [lia |].
    replace (- e) with (- ey + (ey - e)) by lia.
    rewrite Z.pow_add_r by lia. rewrite !Z.mul_assoc.
    apply Z.mul_le_mono_nonneg_r; lia. }
  destruct (binary_round_aux_ge (xorb sa sb) (Zpos a * 2 ^ (- e) / Zpos b) e
              (new_location (Zpos b) ((Zpos a * 2 ^ (- e)) mod Zpos b))
              my ey) as [Hinf | (m & e1 & HR & He1 & Hv)]; try assumption.
  - apply Z.div_pos; lia.
  - left. exact Hinf.
  - right. exists m, e1. split; [exact HR |]. exists e. repeat split; assumption.
Qed.

(** The quotient of two positive [int]s that lies between two neighbours
    [N * 2^g] and [(N + 1) * 2^g] of a grid of binary64 numbers is a finite
    float between the two. *)
Lemma true_divide_grid a b g N :
  -1074 <= g <= 0 -> 0 < N -> N + 1 < 2 ^ 53 ->
  N * Zpos b <= Zpos a * 2 ^ (- g) ->
  Zpos a * 2 ^ (- g) <= (N + 1) * Zpos b ->
  exists m e,
    PyFloat.true_divide (Zpos a) (Zpos b) = inr (S754_finite false m e) /\
    e <= g /\
    N * 2 ^ (g - e) <= Zpos m <= (N + 1) * 2 ^ (g - e).
Proof.
  intros Hg HN HN53 Hlo Hhi.
  unfold PyFloat.true_divide. cbn [Z.abs Z.to_pos Z.ltb Z.compare xorb].
  assert (Hpg : 0 < 2 ^ (- g)) by (apply Z.pow_pos_nonneg; lia).
  pose proof (digits2_pos_bounds a) as Ha.
  pose proof (digits2_pos_bounds b) as Hbb.
  assert (Hdig : Zpos (digits2_pos a) - Zpos (digits2_pos b) - 53 <= g).
  { assert (Hlt : 2 ^ (Zpos (digits2_pos a) - 1 + - g) <
                  2 ^ (53 + Zpos (digits2_pos b))).
    { rewrite !Z.pow_add_r by lia.
      apply Z.le_lt_trans with (Zpos a * 2 ^ (- g));
        [apply Z.mul_le_mono_nonneg_r; lia |].
      apply Z.le_lt_trans with ((N + 1) * Zpos b); [lia |].
      apply Z.mul_lt_mono_nonneg; lia. }
    apply pow2_lt_inv in Hlt; lia. }
  destruct (SFdiv_below false a false b (Z.to_pos (N + 1)) g)
    as [Hz | (m & e & HR & He & Hm)].
  { split; [rewrite Z2Pos.id by lia; lia | lia]. }
  { replace (Z.max 0 (- g)) with (- g) by lia.
    replace (Z.max 0 g) with 0 by lia.
    rewrite Z2Pos.id by lia. rewrite Z.pow_0_r. lia. }
  - destruct (SFdiv_above false a false b (Z.to_pos N) g)
      as [Hinf | (m' & e' & HR' & _)]; try lia.
    + split; [rewrite Z2Pos.id by lia; lia | lia].
    + rewrite Z2Pos.id by lia. lia.
    + rewrite Hz in Hinf. discriminate.
    + rewrite Hz in HR'. discriminate.
  - destruct (SFdiv_above false a false b (Z.to_pos N) g)
      as [Hinf | (m' & e' & HR' & ex & Hex1 & Hex2 & Hv)]; try lia.
    + split; [rewrite Z2Pos.id by lia; lia | lia].
    + rewrite Z2Pos.id by lia. lia.
    + rewrite HR in Hinf. discriminate.
    + rewrite HR in HR'. inversion HR'; subst m' e'.
      rewrite HR. cbn [xorb]. exists m, e. split; [reflexivity |].
      split; [exact He |].
      rewrite Z2Pos.id in Hm, Hv by lia.
      split; [| exact Hm].
      assert (Hp : 0 < 2 ^ (e - ex)) by (apply Z.pow_pos_nonneg; lia).
      replace (g - ex) with ((g - e) + (e - ex)) in Hv by lia.
      rewrite Z.pow_add_r, Z.mul_assoc in Hv by lia.
      apply Z.mul_le_mono_pos_r in Hv; assumption.
Qed.

(** [scaled_round] is within one half of the scaled value. *)
Lemma scaled_round_near m e :
  e < 0 ->
  - 2 ^ (- e) <=
    2 * (PyFloat.scaled_round 3 m e * 2 ^ (- e) - 1000 * Zpos m) <=
    2 ^ (- e).
Proof.
  intros He. destruct e as [| p | p]; try lia.
  unfold PyFloat.scaled_round. change (10 ^ 3) with 1000.
  change (- Zneg p) with (Zpos p).
  assert (Hd : 0 < 2 ^ Zpos p) by (apply Z.pow_pos_nonneg; lia).
  pose proof (Z.div_mod (Zpos m * 1000) (2 ^ Zpos p) ltac:(lia)) as Hdm.
  pose proof (Z.mod_pos_bound (Zpos m * 1000) (2 ^ Zpos p) Hd) as Hr.
  set (q := Zpos m * 1000 / 2 ^ Zpos p) in *.
  set (r := (Zpos m * 1000) mod 2 ^ Zpos p) in *.
  set (d := 2 ^ Zpos p) in *.
  destruct (Z.compare_spec (2 * r) d) as [Heq | Hlt | Hgt].
  - destruct (Z.even q); nia.
  - nia.
  - nia.
Qed.

Lemma string_app_assoc (a b c : string) : (a ++ b) ++ c = a ++ b ++ c.
Proof.
  induction a as [| ch a IH]; cbn [String.append];
    [reflexivity | rewrite IH; reflexivity].
Qed.

(** The string that [format_3f] builds from the scaled integer. *)
Lemma format_3f_finite m e :
  format_3f (S754_finite false m e) =
    str_int (PyFloat.scaled_round 3 m e / 1000) ++ "." ++
    zero_pad 3 (str_int (PyFloat.scaled_round 3 m e mod 1000)).
Proof. reflexivity. Qed.

(** Between 1,000 and 999,999 the float quotient by 1,000, scaled back by
    1,000 and rounded, is the number itself. *)
Lemma true_divide_1000_exact n :
  1000 <= n < 1000000 ->
  exists m e,
    PyFloat.true_divide n 1000 = inr (S754_finite false m e) /\
    PyFloat.scaled_round 3 m e = n.
Proof.
  intros [Hlo Hhi]. destruct n as [| a | a]; try lia.
  set (G := 2 ^ 43).
  assert (HG : G = 8796093022208) by reflexivity.
  set (N := Zpos a * G / 1000).
  pose proof (Z.div_mod (Zpos a * G) 1000 ltac:(lia)) as Hdm.
  pose proof (Z.mod_pos_bound (Zpos a * G) 1000 ltac:(lia)) as Hr.
  fold N in Hdm.
  destruct (true_divide_grid a 1000 (-43) N) as (m & e & Hq & He & Hm);
    try (change (2 ^ (- -43)) with G); try lia.
  exists m, e. split; [exact Hq |].
  pose proof (scaled_round_near m e ltac:(lia)) as Hk.
  set (K := PyFloat.scaled_round 3 m e) in *.
  set (D := 2 ^ (-43 - e)) in *.
  assert (HD : 0 < D) by (apply Z.pow_pos_nonneg; lia).
  assert (Hd : 2 ^ (- e) = G * D).
  { unfold G, D. rewrite <- Z.pow_add_r by lia. f_equal. lia. }
  rewrite Hd in Hk.
  set (A := (Zpos a * G) mod 1000) in *.
  assert (HAD : 0 <= A * D < 1000 * D) by nia.
  destruct (Z.lt_trichotomy K (Zpos a)) as [Hlt | [Heq | Hgt]];
    [exfalso | exact Heq | exfalso].
  - assert (HX : K * (G * D) <= Zpos a * (G * D) - G * D) by nia.
    nia.
  - assert (HX : Zpos a * (G * D) + G * D <= K * (G * D)) by nia.
    nia.
Qed.

(** From 1,000,000 up to [10^15] the float quotient by 1,000,000, scaled
    back by 1,000 and rounded, is an integer nearest to [n / 1000]. *)
Lemma true_divide_1000000_near n :
  1000000 <= n < 10 ^ 15 ->
  exists m e,
    PyFloat.true_divide n 1000000 = inr (S754_finite false m e) /\
    2 * Z.abs (1000 * PyFloat.scaled_round 3 m e - n) <= 1000.
Proof.
  intros [Hlo Hhi]. destruct n as [| a | a]; try lia.
  change (10 ^ 15) with 1000000000000000 in Hhi.
  set (G := 2 ^ 20).
  assert (HG : G = 1048576) by reflexivity.
  set (N := Zpos a * G / 1000000).
  pose proof (Z.div_mod (Zpos a * G) 1000000 ltac:(lia)) as Hdm.
  pose proof (Z.mod_pos_bound (Zpos a * G) 1000000 ltac:(lia)) as Hr.
  fold N in Hdm.
  destruct (true_divide_grid a 1000000 (-20) N) as (m & e & Hq & He & Hm);
    try (change (2 ^ (- -20)) with G); try lia.
  exists m, e. split; [exact Hq |].
  pose proof (scaled_round_near m e ltac:(lia)) as Hk.
  set (K := PyFloat.scaled_round 3 m e) in *.
  set (D := 2 ^ (-20 - e)) in *.
  assert (HD : 0 < D) by (apply Z.pow_pos_nonneg; lia).
  assert (Hd : 2 ^ (- e) = G * D).
  { unfold G, D. rewrite <- Z.pow_add_r by lia. f_equal. lia. }
  rewrite Hd in Hk.
  set (A := (Zpos a * G) mod 1000000) in *.
  assert (HAD : 0 <= A * D < 1000000 * D) by nia.
  destruct (Z_le_gt_dec (1000 * K - Zpos a) 500) as [Hup | Hup].
  - destruct (Z_le_gt_dec (-500) (1000 * K - Zpos a)) as [Hdn | Hdn];
      [lia | exfalso].
    assert (HX : (1000 * K) * (G * D) <= Zpos a * (G * D) - 501 * (G * D))
      by nia.
    nia.
  - exfalso.
    assert (HX : Zpos a * (G * D) + 501 * (G * D) <= (1000 * K) * (G * D))
      by nia.
    nia.
Qed.
(** ** The number formatter *)

(** The quotient of two positive [int]s exists as long as it does not
    exceed the largest float, [(2^53 - 1) * 2^971]. *)
Lemma true_divide_in_range a b :
  Zpos a <= Zpos b * ((2 ^ 53 - 1) * 2 ^ 971) ->
  exists q, PyFloat.true_divide (Zpos a) (Zpos b) = inr q.
Proof.
  intros Hle. unfold PyFloat.true_divide.
  cbn [Z.abs Z.to_pos Z.ltb Z.compare].
  destruct (SFdiv_below false a false b 9007199254740991 971)
    as [-> | (m & e & -> & _)].
  - split; [reflexivity | lia].
  - change (Z.max 0 (- 971)) with 0. change (Z.max 0 971) with 971.
    change (2 ^ 53 - 1) with 9007199254740991 in Hle.
    rewrite Z.pow_0_r, Z.mul_1_r, <- Z.mul_assoc. exact Hle.
  - eexists. reflexivity.
  - eexists. reflexivity.
Qed.

(** C3, as stated, fails: the quotient of [10^315] by 1,000,000 is too
    large for a float, the division raises [OverflowError] and nothing is
    returned. *)
Lemma convert_number_overflows :
  ~ (forall n, 1000000 <= n -> exists s, _convert_number n = inr s).
Proof.
  intros H. destruct (H (10 ^ 315) ltac:(lia)) as (s & Hs).
  vm_compute in Hs. discriminate.
Qed.

Example convert_number_overflow :
  _convert_number (10 ^ 315) = inl OverflowError.
Proof. vm_compute. reflexivity. Qed.

(** C3, amended. From 1,000,000 on, and as long as the quotient by
    1,000,000 does not exceed the largest float, the formatter returns that
    quotient with three decimals and the suffix "M"; up to [10^15] the
    decimals shown are those of a multiple of 0.001 nearest to
    [n / 1000000].  From 1,000 to 999,999 it returns the quotient by 1,000
    with three decimals and the suffix "K", and the digits are exactly
    those of [n / 1000] and of [n mod 1000].  Below 1,000 it returns the
    decimal string of the number.  The sample values are as the
    specification gives them. *)
Theorem convert_number_branches :
  (forall n,
      1000000 <= n -> n <= 1000000 * ((2 ^ 53 - 1) * 2 ^ 971) ->
      exists q, PyFloat.true_divide n 1000000 = inr q /\
                _convert_number n = inr (format_3f q ++ "M")) /\
  (forall n,
      1000000 <= n < 10 ^ 15 ->
      exists k, 2 * Z.abs (1000 * k - n) <= 1000 /\
                _convert_number n =
                  inr (str_int (k / 1000) ++ "." ++
                       zero_pad 3 (str_int (k mod 1000)) ++ "M")) /\
  (forall n,
      1000 <= n < 1000000 ->
      exists q, PyFloat.true_divide n 1000 = inr q /\
                _convert_number n = inr (format_3f q ++ "K") /\
                format_3f q = str_int (n / 1000) ++ "." ++
                              zero_pad 3 (str_int (n mod 1000))) /\
  (forall n, n < 1000 -> _convert_number n = inr (str_int n)) /\
  _convert_number 999 = inr "999" /\
  _convert_number 1000 = inr "1.000K" /\
  _convert_number 1500000 = inr "1.500M" /\
  _convert_number 999999 = inr "999.999K" /\
  _convert_number 1000000 = inr "1.000M".
Proof.
  split; [| split; [| split; [| split]]].
  - intros n Hlo Hhi. unfold _convert_number.
    rewrite !Z.geb_leb.
    destruct (Z.leb_spec 1000000 n); [| lia].
    destruct n as [| a | a]; try lia.
    destruct (true_divide_in_range a 1000000 Hhi) as (q & Hq).
    exists q. rewrite Hq. split; reflexivity.
  - intros n Hn.
    destruct (true_divide_1000000_near n Hn) as (m & e & Hq & Hk).
    exists (PyFloat.scaled_round 3 m e). split; [exact Hk |].
    unfold _convert_number. rewrite !Z.geb_leb.
    destruct (Z.leb_spec 1000000 n); [| lia].
    rewrite Hq. cbn [of_arith]. rewrite format_3f_finite.
    rewrite !string_app_assoc. reflexivity.
  - intros n Hn.
    destruct (true_divide_1000_exact n Hn) as (m & e & Hq & Hk).
    exists (S754_finite false m e). split; [exact Hq |].
    split.
    + unfold _convert_number. rewrite !Z.geb_leb.
      destruct (Z.leb_spec 1000000 n); [lia |].
      destruct (Z.leb_spec 1000 n); [| lia].
      rewrite Hq. reflexivity.
    + rewrite format_3f_finite, Hk. reflexivity.
  - intros n Hn. unfold _convert_number.
    rewrite !Z.geb_leb.
    destruct (Z.leb_spec 1000000 n); [lia |].
    destruct (Z.leb_spec 1000 n); [lia |].
    reflexivity.
  - vm_compute. repeat split; reflexivity.
Qed.

Lemma convert_number_branches_witness :
  exists q, PyFloat.true_divide 1234567 1000000 = inr q /\
            _convert_number 1234567 = inr (format_3f q ++ "M").
Proof.
  apply (proj1 convert_number_branches 1234567).
  - lia.
  - vm_compute. discriminate.
Defined.

(* ================================================================== *)
(** * Further properties *)

(** ** One session per remote image *)

(** X1. Whatever the server answers, [_image] opens one session, sends one
    request for the URL, closes the session, and leaves the card alone; in
    between it reads and decodes the body exactly when the status is 200. *)
Theorem image_session_discipline (env : Env) (url : string) (st : state) :
  card (snd (_image env url st)) = card st /\
  log (snd (_image env url st)) =
    (log st ++
     SessionOpen :: HttpGet url ::
     match http_get env url with
     | Some (status, body) =>
         if status =? 200 then [ResponseRead url; ImageOpen body] else []
     | None => []
     end ++ [SessionClose])%list.
Proof.
  unfold _image, finally, image_open. run_monad.
  destruct (http_get env url) as [[status body] |]; run_monad.
  - destruct (status =? 200); run_monad.
    + destruct (identify env body) as [[mode sz] |]; run_monad;
        (split; [reflexivity |]); rewrite <- !app_assoc; reflexivity.
    + split; [reflexivity |]. rewrite <- !app_assoc. reflexivity.
  - split; [reflexivity |]. rewrite <- !app_assoc. reflexivity.
Qed.

(** ** What the stages leave behind, in every outcome *)

Ltac forall_events :=
  repeat (apply Forall_cons; [cbn; eauto 10 |]); try apply Forall_nil.

Ltac log_events :=
  eexists; split;
  [ rewrite <- ?app_assoc; try reflexivity; symmetry; apply app_nil_r
  | cbn [app]; forall_events ].

Lemma resolve_background_outcome env st :
  same_profile (card st) (card (snd (resolve_background env st))) /\
  avatar (card (snd (resolve_background env st))) = avatar (card st) /\
  (forall e, fst (resolve_background env st) = inl e ->
             card (snd (resolve_background env st)) = card st) /\
  exists rest,
    log (snd (resolve_background env st)) = (log st ++ rest)%list /\
    Forall (source_io (background (card st))) rest.
Proof.
  unfold resolve_background, buffer_check, _image, finally, same_profile.
  run_monad.
  destruct (background (card st)) as [| z | s | p | b | im0] eqn:Hbg;
    run_monad;
    try (repeat split; try reflexivity; log_events).
  - destruct (String.prefix "http" s) eqn:Hpre; run_monad.
    + destruct (http_get env s) as [[status body] |]; run_monad.
      * destruct (status =? 200); run_monad.
        -- destruct (identify env body) as [[mode sz] |]; run_monad;
             repeat split; try reflexivity; try discriminate; log_events.
        -- repeat split; try reflexivity; log_events.
      * repeat split; try reflexivity; log_events.
    + destruct (read_file env s) as [data |]; run_monad.
      * destruct (identify env data) as [[mode sz] |]; run_monad;
          repeat split; try reflexivity; try discriminate; log_events.
      * repeat split; try reflexivity; log_events.
  - destruct (buf_seekable b), (buf_readable b); run_monad;
      try (repeat split; try reflexivity; log_events).
    destruct (buf_mode b) as [m |]; run_monad;
      try (repeat split; try reflexivity; log_events).
    destruct (String.eqb m "rb"); run_monad;
      try (repeat split; try reflexivity; log_events).
    destruct (identify env (buf_data b)) as [[mode sz] |]; run_monad;
      repeat split; try reflexivity; try discriminate; log_events.
Qed.

Lemma resolve_avatar_outcome env st :
  same_profile (card st) (card (snd (resolve_avatar env st))) /\
  background (card (snd (resolve_avatar env st))) = background (card st) /\
  (forall e, fst (resolve_avatar env st) = inl e ->
             card (snd (resolve_avatar env st)) = card st) /\
  exists rest,
    log (snd (resolve_avatar env st)) = (log st ++ rest)%list /\
    Forall (source_io (avatar (card st))) rest.
Proof.
  unfold resolve_avatar, _image, finally, same_profile.
  run_monad.
  destruct (avatar (card st)) as [| z | s | p | b | im0] eqn:Hav;
    run_monad;
    try (repeat split; try reflexivity; log_events).
  destruct (String.prefix "http" s) eqn:Hpre; run_monad.
  - destruct (http_get env s) as [[status body] |]; run_monad.
    + destruct (status =? 200); run_monad.
      * destruct (identify env body) as [[mode sz] |]; run_monad;
          repeat split; try reflexivity; try discriminate; log_events.
      * repeat split; try reflexivity; log_events.
    + repeat split; try reflexivity; log_events.
  - destruct (read_file env s) as [data |]; run_monad.
    + destruct (identify env data) as [[mode sz] |]; run_monad;
        repeat split; try reflexivity; try discriminate; log_events.
    + repeat split; try reflexivity; log_events.
Qed.

Lemma bar_exp_zero_division a b :
  bar_exp a b = inl ZeroDivisionError -> b = 0.
Proof.
  unfold bar_exp, PyFloat.true_divide.
  destruct b as [| b | b]; [reflexivity | |];
    (destruct a as [| a | a]; cbn [of_arith];
     [ destruct (PyFloat.leb _ _); discriminate | | ]).
  all: match goal with
       | |- context [SFdiv ?p ?e ?x ?y] => destruct (SFdiv p e x y)
       end; cbn [of_arith]; try discriminate.
  all: destruct (PyFloat.leb _ _); discriminate.
Qed.

Lemma convert_number_no_zero_division n :
  _convert_number n <> inl ZeroDivisionError.
Proof.
  unfold _convert_number, PyFloat.true_divide.
  destruct (n >=? 1000000).
  - destruct n as [| a | a]; cbn [of_arith]; try discriminate.
    all: match goal with
         | |- context [SFdiv ?p ?e ?x ?y] => destruct (SFdiv p e x y)
         end; cbn [of_arith]; discriminate.
  - destruct (n >=? 1000); [| discriminate].
    destruct n as [| a | a]; cbn [of_arith]; try discriminate.
    all: match goal with
         | |- context [SFdiv ?p ?e ?x ?y] => destruct (SFdiv p e x y)
         end; cbn [of_arith]; discriminate.
Qed.

Lemma compose_outcome env bg0 av0 st :
  same_profile (card st) (card (snd (compose env bg0 av0 st))) /\
  avatar (card (snd (compose env bg0 av0 st))) =
    VImage (Resize av0 (170, 170)) /\
  ((exists im, background (card st) = VImage im) ->
   exists im, background (card (snd (compose env bg0 av0 st))) = VImage im) /\
  exists rest,
    log (snd (compose env bg0 av0 st)) = (log st ++ rest)%list /\
    Forall (asset_io env) rest.
Proof.
  unfold compose, same_profile. rewrite text_y_20, text_y_125. run_monad.
  repeat step_all
    ltac:(repeat split; try reflexivity;
          [ intros H; first [exact H | eexists; reflexivity]
          | log_events ]).
  all: repeat split; try reflexivity;
    [ intros H; first [exact H | eexists; reflexivity]
    | log_events ].
Qed.

Lemma compose_errors env bg0 av0 st :
  (fst (compose env bg0 av0 st) = inl ZeroDivisionError ->
   max_xp (card st) = 0) /\
  (forall msg, fst (compose env bg0 av0 st) <> inl (InvalidImageUrl msg)).
Proof.
  unfold compose. rewrite text_y_20, text_y_125. run_monad.
  repeat step_all
    ltac:(split;
          [ intros Heq; try discriminate Heq; inversion Heq; subst;
            match goal with
            | H : bar_exp _ _ = inl ZeroDivisionError |- _ =>
                exact (bar_exp_zero_division _ _ H)
            | H : _convert_number _ = inl ZeroDivisionError |- _ =>
                exfalso; exact (convert_number_no_zero_division _ H)
            end
          | intros msg Heq; try discriminate Heq; inversion Heq; subst;
            match goal with
            | H : bar_exp _ _ = inl _ |- _ =>
                apply bar_exp_inl in H; destruct H; discriminate
            | H : _convert_number _ = inl _ |- _ =>
                apply convert_number_inl in H; destruct H; discriminate
            end ]).
  all: split; [discriminate | intros msg; discriminate].
Qed.

(** What the compositing stage of a returning call logged. *)
Lemma compose_inr_log env bg0 av0 st buf st' :
  compose env bg0 av0 st = (inr buf, st') ->
  exists data,
    log st' =
      (log st ++
       asset_log env data (alpha_paste_error env (Resize av0 (170, 170))))%list.
Proof.
  unfold compose. rewrite text_y_20, text_y_125. run_monad.
  repeat step_compose.
  all: intros H; inversion H; subst; clear H.
  all: match goal with
       | H1 : read_file _ (_ ++ "/assets/overlay1.png") = Some ?d1,
         H2 : read_file _ (_ ++ "/assets/mask_circle.jpg") = Some ?d2,
         H3 : read_file _ (_ ++ "/assets/curvedoverlay.png") = Some ?d3
         |- _ => exists (d1, d2, d3)
       end.
  all: unfold asset_log; cbn [app]; rewrite <- ?app_assoc; reflexivity.
Qed.

Lemma same_profile_refl c : same_profile c c.
Proof. unfold same_profile. repeat split. Qed.

Lemma same_profile_trans c1 c2 c3 :
  same_profile c1 c2 -> same_profile c2 c3 -> same_profile c1 c3.
Proof.
  unfold same_profile.
  intros (A1 & A2 & A3 & A4 & A5 & A6) (B1 & B2 & B3 & B4 & B5 & B6).
  repeat split; congruence.
Qed.

(** [create], stage by stage: the states it goes through. *)
Lemma create_stages env c :
  (exists e st1,
      resolve_background env (start c) = (inl e, st1) /\
      run_create env c = (inl e, st1)) \/
  (exists bg st1 e st2,
      resolve_background env (start c) = (inr bg, st1) /\
      resolve_avatar env st1 = (inl e, st2) /\
      run_create env c = (inl e, st2)) \/
  (exists bg st1 av st2,
      resolve_background env (start c) = (inr bg, st1) /\
      resolve_avatar env st1 = (inr av, st2) /\
      run_create env c = compose env bg av st2).
Proof.
  unfold run_create, create.
  destruct (resolve_background env (start c)) as [[e | bg] st1] eqn:Hbg.
  - left. exists e, st1. split; [reflexivity |].
    rewrite (bind_inl _ _ _ _ _ Hbg). reflexivity.
  - right. rewrite (bind_step _ _ _ _ _ Hbg). cbv beta.
    destruct (resolve_avatar env st1) as [[e | av] st2] eqn:Hav.
    + left. exists bg, st1, e, st2.
      split; [reflexivity |]. split; [exact Hav |].
      rewrite (bind_inl _ _ _ _ _ Hav). reflexivity.
    + right. exists bg, st1, av, st2.
      split; [reflexivity |]. split; [exact Hav |].
      rewrite (bind_step _ _ _ _ _ Hav). reflexivity.
Qed.

(** ** A failure and the card *)

(** X2. When the background cannot be resolved, [create] raises the error
    of that step and the card is exactly as it was: the call can be made
    again. *)
Theorem background_failure_leaves_card (env : Env) (c : RankCard)
    (e : exn) (st1 : state)
    (Hbg : resolve_background env (start c) = (inl e, st1)) :
  run_create env c = (inl e, st1) /\ card st1 = c.
Proof.
  split.
  - unfold run_create, create. rewrite (bind_inl _ _ _ _ _ Hbg). reflexivity.
  - destruct (resolve_background_outcome env (start c)) as (_ & _ & Hc & _).
    rewrite Hbg in Hc. exact (Hc e eq_refl).
Qed.

Lemma background_failure_leaves_card_witness :
  run_create Sample.env Scenario.missing_background_card =
    (inl (OSError "No such file or directory: missing.png"),
     {| card := Scenario.missing_background_card;
        log := [FileOpen "missing.png" "rb"] |}) /\
  card {| card := Scenario.missing_background_card;
          log := [FileOpen "missing.png" "rb"] |} =
    Scenario.missing_background_card.
Proof.
  apply (background_failure_leaves_card Sample.env
           Scenario.missing_background_card).
  vm_compute. reflexivity.
Defined.




(** X4. In every outcome, [create] leaves [level], [username],
    [current_xp], [max_xp], [bar_color] and [text_color] as they were: the
    only fields it assigns are [background] and [avatar]. *)
Theorem create_keeps_profile (env : Env) (c : RankCard) :
  same_profile c (card (snd (run_create env c))).
Proof.
  destruct (create_stages env c)
    as [(e & s1 & H1 & Hrun) | [(bg & s1 & e & s2 & H1 & H2 & Hrun)
                               | (bg & s1 & av & s2 & H1 & H2 & Hrun)]];
    rewrite Hrun; cbn [snd].
  - destruct (resolve_background_outcome env (start c)) as (Hp & _).
    rewrite H1 in Hp. exact Hp.
  - destruct (resolve_background_outcome env (start c)) as (Hp1 & _).
    destruct (resolve_avatar_outcome env s1) as (Hp2 & _).
    rewrite H1 in Hp1. rewrite H2 in Hp2.
    exact (same_profile_trans _ _ _ Hp1 Hp2).
  - destruct (resolve_background_outcome env (start c)) as (Hp1 & _).
    destruct (resolve_avatar_outcome env s1) as (Hp2 & _).
    destruct (compose_outcome env bg av s2) as (Hp3 & _).
    rewrite H1 in Hp1. rewrite H2 in Hp2.
    exact (same_profile_trans _ _ _ (same_profile_trans _ _ _ Hp1 Hp2) Hp3).
Qed.

(** ** What a call reaches *)

Lemma create_log_events env c :
  Forall (fun ev => source_io (background c) ev \/
                    source_io (avatar c) ev \/ asset_io env ev)
    (log (snd (run_create env c))).
Proof.
  destruct (resolve_background_outcome env (start c))
    as (_ & Hav1 & _ & rest1 & Hlog1 & Hev1).
  cbn [start card log app] in Hav1, Hlog1, Hev1.
  assert (Hev1' : Forall (fun ev => source_io (background c) ev \/
                            source_io (avatar c) ev \/ asset_io env ev) rest1).
  { eapply Forall_impl; [| exact Hev1]. intros ev H. left. exact H. }
  destruct (create_stages env c)
    as [(e & s1 & H1 & Hrun) | [(bg & s1 & e & s2 & H1 & H2 & Hrun)
                               | (bg & s1 & av & s2 & H1 & H2 & Hrun)]];
    rewrite Hrun; cbn [snd]; rewrite H1 in Hav1, Hlog1; cbn [snd] in Hav1, Hlog1.
  - rewrite Hlog1. exact Hev1'.
  - destruct (resolve_avatar_outcome env s1)
      as (_ & _ & _ & rest2 & Hlog2 & Hev2).
    rewrite H2 in Hlog2. cbn [snd] in Hlog2. rewrite Hav1 in Hev2.
    rewrite Hlog2, Hlog1. apply Forall_app. split; [exact Hev1' |].
    eapply Forall_impl; [| exact Hev2]. intros ev H. right. left. exact H.
  - destruct (resolve_avatar_outcome env s1)
      as (_ & _ & _ & rest2 & Hlog2 & Hev2).
    rewrite H2 in Hlog2. cbn [snd] in Hlog2. rewrite Hav1 in Hev2.
    destruct (compose_outcome env bg av s2)
      as (_ & _ & _ & rest3 & Hlog3 & Hev3).
    rewrite Hlog3, Hlog2, Hlog1.
    apply Forall_app. split; [apply Forall_app; split; [exact Hev1' |] |].
    + eapply Forall_impl; [| exact Hev2]. intros ev H. right. left. exact H.
    + eapply Forall_impl; [| exact Hev3]. intros ev H. right. right. exact H.
Qed.

(** X5. [create] reaches the network only for the two sources: every
    request it sends is for the background or the avatar, which then is a
    string that starts with "http"; a call on a card of which neither is
    such a string opens no session and sends nothing. *)
Theorem create_requests_only_the_sources (env : Env) (c : RankCard)
    (ev : event) (Hin : In ev (log (snd (run_create env c)))) :
  match ev with
  | HttpGet u | ResponseRead u =>
      (background c = VStr u \/ avatar c = VStr u) /\
      String.prefix "http" u = true
  | SessionOpen | SessionClose =>
      exists u, (background c = VStr u \/ avatar c = VStr u) /\
                String.prefix "http" u = true
  | _ => True
  end.
Proof.
  pose proof (create_log_events env c) as Hall.
  rewrite Forall_forall in Hall. specialize (Hall ev Hin).
  destruct ev; cbn in Hall; try exact I.
  - destruct Hall as [(u & H1 & H2) | [(u & H1 & H2) | []]];
      exists u; auto.
  - destruct Hall as [(u & H1 & H2) | [(u & H1 & H2) | []]];
      exists u; auto.
  - destruct Hall as [(H1 & H2) | [(H1 & H2) | []]]; auto.
  - destruct Hall as [(H1 & H2) | [(H1 & H2) | []]]; auto.
Qed.

Lemma create_requests_only_the_sources_witness :
  (background Sample.rank_card = VStr "https://cdn.example/avatar.png" \/
   avatar Sample.rank_card = VStr "https://cdn.example/avatar.png") /\
  String.prefix "http" "https://cdn.example/avatar.png" = true.
Proof.
  apply (create_requests_only_the_sources Sample.env Sample.rank_card
           (HttpGet "https://cdn.example/avatar.png")).
  vm_compute. auto.
Defined.

(** X6. [create] opens files only to read them: every file it opens is
    opened in mode "rb" and is one of the three images of the [assets]
    directory, or the background or the avatar when that is a string that
    does not start with "http"; the only font it loads is [levelfont.otf],
    at 40 and at 30 points. *)
Theorem create_opens_files_to_read (env : Env) (c : RankCard)
    (ev : event) (Hin : In ev (log (snd (run_create env c)))) :
  match ev with
  | FileOpen p m =>
      m = "rb" /\
      (p = module_dir env ++ "/assets/overlay1.png" \/
       p = module_dir env ++ "/assets/mask_circle.jpg" \/
       p = module_dir env ++ "/assets/curvedoverlay.png" \/
       ((background c = VStr p \/ avatar c = VStr p) /\
        String.prefix "http" p = false))
  | FontLoad f sz =>
      f = module_dir env ++ "/assets/levelfont.otf" /\ (sz = 40 \/ sz = 30)
  | _ => True
  end.
Proof.
  pose proof (create_log_events env c) as Hall.
  rewrite Forall_forall in Hall. specialize (Hall ev Hin).
  destruct ev; cbn in Hall; try exact I.
  - destruct Hall as [(H1 & H2 & H3) | [(H1 & H2 & H3) | (H1 & H2)]].
    + split; [exact H3 |]. right. right. right. auto.
    + split; [exact H3 |]. right. right. right. auto.
    + split; [exact H1 |]. destruct H2 as [H | [H | H]]; auto.
  - destruct Hall as [[] | [[] | H]]. exact H.
Qed.

Lemma create_opens_files_to_read_witness :
  "rb" = "rb" /\
  ("background.jpg" = module_dir Sample.env ++ "/assets/overlay1.png" \/
   "background.jpg" = module_dir Sample.env ++ "/assets/mask_circle.jpg" \/
   "background.jpg" = module_dir Sample.env ++ "/assets/curvedoverlay.png" \/
   ((background Sample.rank_card = VStr "background.jpg" \/
     avatar Sample.rank_card = VStr "background.jpg") /\
    String.prefix "http" "background.jpg" = false)).
Proof.
  apply (create_opens_files_to_read Sample.env Sample.rank_card
           (FileOpen "background.jpg" "rb")).
  vm_compute. auto.
Defined.

(** ** Nothing to reach *)

Lemma resolve_stage_errors env st :
  fst (resolve_background env st) <> inl ZeroDivisionError /\
  fst (resolve_avatar env st) <> inl ZeroDivisionError.
Proof.
  unfold resolve_background, resolve_avatar, buffer_check, _image, finally.
  run_monad. split.
  - destruct (background (card st)) as [| z | s | p | b | im0]; run_monad;
      try discriminate.
    + destruct (String.prefix "http" s); run_monad.
      * destruct (http_get env s) as [[status body] |]; run_monad;
          [| discriminate].
        destruct (status =? 200); run_monad; [| discriminate].
        destruct (identify env body) as [[mode sz] |]; run_monad;
          discriminate.
      * destruct (read_file env s) as [data |]; run_monad; [| discriminate].
        destruct (identify env data) as [[mode sz] |]; run_monad;
          discriminate.
    + destruct (buf_seekable b), (buf_readable b); run_monad;
        try discriminate.
      destruct (buf_mode b) as [m |]; run_monad; [| discriminate].
      destruct (String.eqb m "rb"); run_monad; [| discriminate].
      destruct (identify env (buf_data b)) as [[mode sz] |]; run_monad;
        discriminate.
  - destruct (avatar (card st)) as [| z | s | p | b | im0]; run_monad;
      try discriminate.
    destruct (String.prefix "http" s); run_monad.
    + destruct (http_get env s) as [[status body] |]; run_monad;
        [| discriminate].
      destruct (status =? 200); run_monad; [| discriminate].
      destruct (identify env body) as [[mode sz] |]; run_monad;
        discriminate.
    + destruct (read_file env s) as [data |]; run_monad; [| discriminate].
      destruct (identify env data) as [[mode sz] |]; run_monad;
        discriminate.
Qed.

(** X7. With [max_xp = 0] no call of [create] returns a card; and
    [create] raises [ZeroDivisionError] only when [max_xp] is 0. *)
Theorem zero_max_xp_never_returns (env : Env) (c : RankCard) :
  (max_xp c = 0 -> forall buf st', run_create env c <> (inr buf, st')) /\
  (fst (run_create env c) = inl ZeroDivisionError -> max_xp c = 0).
Proof.
  split.
  - intros Hz buf st' Hrun.
    destruct (create_draws_bar env c buf st' Hrun) as (im & bar & _ & Hbar & _).
    rewrite Hz in Hbar. unfold bar_exp, PyFloat.true_divide in Hbar.
    cbn [of_arith] in Hbar. discriminate.
  - destruct (create_stages env c)
      as [(e & s1 & H1 & Hrun) | [(bg & s1 & e & s2 & H1 & H2 & Hrun)
                                 | (bg & s1 & av & s2 & H1 & H2 & Hrun)]];
      rewrite Hrun.
    + cbn [fst]. intros He. exfalso.
      destruct (resolve_stage_errors env (start c)) as [Hn _].
      apply Hn. rewrite H1. cbn [fst]. inversion He. reflexivity.
    + cbn [fst]. intros He. exfalso.
      destruct (resolve_stage_errors env s1) as [_ Hn].
      apply Hn. rewrite H2. cbn [fst]. inversion He. reflexivity.
    + intros He.
      destruct (compose_errors env bg av s2) as [Hz _].
      specialize (Hz He).
      destruct (resolve_background_outcome env (start c)) as (Hp1 & _).
      destruct (resolve_avatar_outcome env s1) as (Hp2 & _).
      rewrite H1 in Hp1. rewrite H2 in Hp2. cbn [snd start card] in Hp1, Hp2.
      destruct Hp1 as (_ & _ & _ & _ & _ & Hm1).
      destruct Hp2 as (_ & _ & _ & _ & _ & Hm2).
      congruence.
Qed.

Lemma zero_max_xp_never_returns_witness :
  max_xp Scenario.zero_max_card = 0.
Proof.
  apply (proj2 (zero_max_xp_never_returns Sample.env Scenario.zero_max_card)).
  vm_compute. reflexivity.
Defined.

(** ** The floor of the bar *)

Lemma leb_negative_finite x mc ec :
  x = S754_zero true \/ (exists m e, x = S754_finite true m e) \/
  x = S754_infinity true ->
  PyFloat.leb x (S754_finite false mc ec) = true.
Proof.
  intros [-> | [(m & e & ->) | ->]]; reflexivity.
Qed.

(** X8. Without XP, or with negative XP, the bar has its floor: for
    [current_xp <= 0 < max_xp] the width, whenever it is computed, is the
    [int] 50, and it is computed as long as [- max_xp <= current_xp]. *)
Theorem bar_exp_floor_without_xp (cur mx : Z)
    (Hcur : cur <= 0) (Hmx : 0 < mx) :
  (forall v, bar_exp cur mx = inr v -> v = NInt 50) /\
  (- mx <= cur -> bar_exp cur mx = inr (NInt 50)).
Proof.
  destruct mx as [| b | b]; try lia.
  destruct cur as [| a | a]; try lia.
  - split; intros; [| vm_compute; reflexivity].
    match goal with H : bar_exp 0 _ = _ |- _ =>
      vm_compute in H; inversion H; reflexivity end.
  - assert (Hfloor : forall q,
               q = S754_zero true \/ (exists m e, q = S754_finite true m e) ->
               PyFloat.leb (PyFloat.mul q (PyFloat.of_int 420))
                 (PyFloat.of_int 50) = true).
    { intros q Hq. rewrite of_int_420, of_int_50.
      apply leb_negative_finite.
      destruct Hq as [-> | (m & e & ->)]; unfold PyFloat.mul; cbn [SFmul xorb].
      - left. reflexivity.
      - destruct (binary_round_aux_cases true
                    (Zpos (m * 7388718138654720)) (e + -44) loc_Exact
                    ltac:(lia)) as [-> | [(m' & e' & ->) | ->]].
        + left. reflexivity.
        + right. left. exists m', e'. reflexivity.
        + right. right. reflexivity. }
    unfold bar_exp, PyFloat.true_divide.
    cbn [Z.abs Z.to_pos Z.ltb Z.compare xorb].
    split.
    + intros v. rewrite SFdiv_ints. cbv zeta. cbn [xorb].
      match goal with
      | |- context [binary_round_aux ?p ?em true ?m ?e ?l] =>
          assert (Hnn : 0 <= m)
            by (apply Z.div_pos; [| lia];
                apply Z.mul_nonneg_nonneg; [lia |];
                apply Z.pow_nonneg; lia);
          destruct (binary_round_aux_cases true m e l Hnn)
            as [-> | [(m' & e' & ->) | ->]]
      end; cbn [of_arith]; try discriminate.
      * rewrite Hfloor by (left; reflexivity).
        intros H; inversion H; reflexivity.
      * rewrite Hfloor by (right; exists m', e'; reflexivity).
        intros H; inversion H; reflexivity.
    + intros Hlow.
      destruct (SFdiv_below true a false b 4503599627370496 (-52))
        as [-> | (m & e & -> & _)].
      * split; [reflexivity | lia].
      * change (2 ^ Z.max 0 (- -52)) with 4503599627370496.
        change (2 ^ Z.max 0 (-52)) with 1. lia.
      * cbn [xorb of_arith]. rewrite Hfloor by (left; reflexivity).
        reflexivity.
      * cbn [xorb of_arith].
        rewrite Hfloor by (right; exists m, e; reflexivity). reflexivity.
Qed.

Lemma bar_exp_floor_without_xp_witness :
  bar_exp (-30) 100 = inr (NInt 50).
Proof.
  apply (proj2 (bar_exp_floor_without_xp (-30) 100 ltac:(lia) ltac:(lia))).
  lia.
Defined.

(** ** The card after a call that returned *)

(** X9. A call that returned has also replaced [avatar] by the decoded
    image, resized to 170 by 170.  So assigning a fresh source to
    [background] does not make the card usable again: no later call
    returns, and once the new background has resolved the call raises
    [InvalidImageType] for the avatar. *)
Theorem returned_card_holds_resized_avatar (env : Env) (c : RankCard)
    (buf : BytesIO) (st' : state)
    (Hrun : run_create env c = (inr buf, st')) :
  (exists av, avatar (card st') = VImage av /\ size av = (170, 170)) /\
  forall env' v,
    (forall buf' st'',
        run_create env' (set_background v (card st')) <> (inr buf', st'')) /\
    (forall bg st1,
        resolve_background env' (start (set_background v (card st'))) =
          (inr bg, st1) ->
        run_create env' (set_background v (card st')) =
          (inl (InvalidImageType
                  "avatar must be a url, not <class 'PIL.Image.Image'>"),
           st1)).
Proof.
  assert (Hav : exists av, avatar (card st') = VImage av /\
                           size av = (170, 170)).
  { destruct (create_stages env c)
      as [(e & s1 & _ & Hr) | [(bg & s1 & e & s2 & _ & _ & Hr)
                              | (bg & s1 & av & s2 & _ & _ & Hr)]];
      rewrite Hr in Hrun; try discriminate.
    destruct (compose_outcome env bg av s2) as (_ & Ha & _).
    rewrite Hrun in Ha. cbn [snd] in Ha.
    exists (Resize av (170, 170)). split; [exact Ha | reflexivity]. }
  split; [exact Hav |].
  destruct Hav as (av & Hav & _).
  intros env' v.
  assert (Hok : forall bg st1,
             resolve_background env' (start (set_background v (card st'))) =
               (inr bg, st1) ->
             run_create env' (set_background v (card st')) =
               (inl (InvalidImageType
                       "avatar must be a url, not <class 'PIL.Image.Image'>"),
                st1)).
  { intros bg st1 Hbg. unfold run_create, create.
    rewrite (bind_step _ _ _ _ _ Hbg). cbv beta.
    apply resolve_background_inr in Hbg. destruct Hbg as [_ Hcard].
    assert (Hsame : avatar (card st1) = VImage av).
    { rewrite Hcard. exact Hav. }
    assert (Hnot : forall s, avatar (card st1) <> VStr s).
    { intros s. rewrite Hsame. discriminate. }
    rewrite (bind_inl _ _ _ _ _ (resolve_avatar_not_str env' st1 Hnot)).
    rewrite Hsame. reflexivity. }
  split; [| exact Hok].
  intros buf' st'' Hret.
  destruct (create_stages env' (set_background v (card st')))
    as [(e & s1 & _ & Hr) | [(bg & s1 & e & s2 & _ & _ & Hr)
                            | (bg & s1 & av' & s2 & H1 & _ & Hr)]].
  - rewrite Hr in Hret. discriminate.
  - rewrite Hr in Hret. discriminate.
  - rewrite (Hok bg s1 H1) in Hret. discriminate.
Qed.

Lemma returned_card_holds_resized_avatar_witness :
  exists av,
    avatar (card (snd (run_create Sample.env Sample.rank_card))) =
      VImage av /\
    size av = (170, 170).
Proof.
  apply (proj1 (returned_card_holds_resized_avatar Sample.env
                  Sample.rank_card
                  {| bio_data := Sample.png; bio_pos := 0 |}
                  (snd (run_create Sample.env Sample.rank_card))
                  ltac:(vm_compute; reflexivity))).
Defined.

(** X10. A call that returns reads the assets from disk every time, after
    both sources and in this order: the overlay, the font at 40 and at 30
    points, the circle mask, the curved overlay.  It prints something
    exactly when the paste of the avatar through its alpha band raised,
    and then it prints that exception. *)
Theorem returning_call_reads_assets (env : Env) (c : RankCard)
    (buf : BytesIO) (st' : state)
    (Hrun : run_create env c = (inr buf, st')) :
  exists sources data av,
    avatar (card st') = VImage av /\
    log st' = (sources ++ asset_log env data (alpha_paste_error env av))%list /\
    Forall (fun ev => source_io (background c) ev \/
                      source_io (avatar c) ev) sources.
Proof.
  destruct (create_stages env c)
    as [(e & s1 & _ & Hr) | [(bg & s1 & e & s2 & _ & _ & Hr)
                            | (bg & s1 & av & s2 & H1 & H2 & Hr)]];
    rewrite Hr in Hrun; try discriminate.
  destruct (compose_inr_log env bg av s2 buf st' Hrun) as (data & Hlog).
  destruct (compose_outcome env bg av s2) as (_ & Ha & _).
  rewrite Hrun in Ha. cbn [snd] in Ha.
  destruct (resolve_background_outcome env (start c))
    as (_ & Hav1 & _ & rest1 & Hlog1 & Hev1).
  rewrite H1 in Hav1, Hlog1. cbn [snd start card log app] in Hav1, Hlog1, Hev1.
  destruct (resolve_avatar_outcome env s1)
    as (_ & _ & _ & rest2 & Hlog2 & Hev2).
  rewrite H2 in Hlog2. cbn [snd] in Hlog2. rewrite Hav1 in Hev2.
  exists (log s2), data, (Resize av (170, 170)).
  split; [exact Ha |]. split; [exact Hlog |].
  rewrite Hlog2, Hlog1. apply Forall_app. split.
  - eapply Forall_impl; [| exact Hev1]. intros ev H. left. exact H.
  - eapply Forall_impl; [| exact Hev2]. intros ev H. right. exact H.
Qed.

Lemma returning_call_reads_assets_witness :
  exists sources data av,
    avatar (card (snd (run_create Sample.env Sample.rank_card))) =
      VImage av /\
    log (snd (run_create Sample.env Sample.rank_card)) =
      (sources ++
       asset_log Sample.env data (alpha_paste_error Sample.env av))%list /\
    Forall (fun ev => source_io (background Sample.rank_card) ev \/
                      source_io (avatar Sample.rank_card) ev) sources.
Proof.
  apply (returning_call_reads_assets Sample.env Sample.rank_card
           {| bio_data := Sample.png; bio_pos := 0 |}
           (snd (run_create Sample.env Sample.rank_card))).
  vm_compute. reflexivity.
Defined.

(** ** Backgrounds that are not strings *)

(** X11. A seekable and readable buffer that has no [mode] attribute, as
    every [io.BytesIO] is, is never accepted as a background: [create]
    raises [AttributeError] before it reads anything, and leaves the card
    as it was. *)
Theorem buffer_without_mode_never_accepted (env : Env) (c : RankCard)
    (b : buffer)
    (Hb : background c = VBuffer b)
    (Hs : buf_seekable b = true) (Hr : buf_readable b = true)
    (Hm : buf_mode b = None) :
  run_create env c =
    (inl (AttributeError
            ("'" ++ buf_class b ++ "' object has no attribute 'mode'")),
     start c).
Proof.
  unfold run_create, create, resolve_background, buffer_check, start.
  run_monad. rewrite Hb. run_monad. rewrite Hs, Hr, Hm. reflexivity.
Qed.

Lemma buffer_without_mode_never_accepted_witness :
  run_create Sample.env
    (Scenario.card_with (VBuffer Scenario.bytes_io) Scenario.avatar_url
       250 1000) =
    (inl (AttributeError "'_io.BytesIO' object has no attribute 'mode'"),
     start (Scenario.card_with (VBuffer Scenario.bytes_io)
              Scenario.avatar_url 250 1000)).
Proof.
  apply (buffer_without_mode_never_accepted Sample.env _ Scenario.bytes_io);
    reflexivity.
Defined.

(** X12. A buffer that has a [mode] attribute is refused with
    [InvalidImageType] as soon as it is not seekable, not readable, or its
    mode is another string than "rb" (so also "rb+" and "r+b"): nothing is
    read and the card is left as it was. *)
Theorem buffer_with_other_mode_refused (env : Env) (c : RankCard)
    (b : buffer) (m : string)
    (Hb : background c = VBuffer b)
    (Hm : buf_mode b = Some m)
    (Hbad : buf_seekable b = false \/ buf_readable b = false \/ m <> "rb") :
  run_create env c =
    (inl (InvalidImageType
            ("File buffer " ++ buf_repr b ++
             " must be seekable and readable and in binary mode")),
     start c).
Proof.
  unfold run_create, create, resolve_background, buffer_check, start.
  run_monad. rewrite Hb. run_monad. rewrite Hm.
  destruct (buf_seekable b), (buf_readable b); run_monad; try reflexivity.
  destruct (String.eqb_spec m "rb") as [-> | Hne]; run_monad;
    [| reflexivity].
  destruct Hbad as [H | [H | H]]; try discriminate. contradiction.
Qed.

Lemma buffer_with_other_mode_refused_witness :
  run_create Sample.env
    (Scenario.card_with (VBuffer Scenario.write_only_file)
       Scenario.avatar_url 250 1000) =
    (inl (InvalidImageType
            "File buffer <_io.BufferedWriter name='out.png'> must be seekable and readable and in binary mode"),
     start (Scenario.card_with (VBuffer Scenario.write_only_file)
              Scenario.avatar_url 250 1000)).
Proof.
  apply (buffer_with_other_mode_refused Sample.env _
           Scenario.write_only_file "wb"); [reflexivity | reflexivity |].
  right. left. reflexivity.
Defined.



(** X14. A background that is neither a string nor a buffer (so also a
    [pathlib.Path], which the docstring of [Settings] allows) is refused
    with [InvalidImageType] at once: nothing is logged, the avatar is not
    looked at, and the card is left as it was. *)
Theorem background_of_other_type_refused (env : Env) (c : RankCard)
    (Hstr : forall s, background c <> VStr s)
    (Hbuf : forall b, background c <> VBuffer b) :
  run_create env c =
    (inl (InvalidImageType
            ("background must be a path or url or a file buffer, not " ++
             type_repr (background c))),
     start c).
Proof.
  unfold run_create, create, resolve_background, start. run_monad.
  destruct (background c) as [| z | s | p | b | im0]; try reflexivity.
  - exfalso. exact (Hstr s eq_refl).
  - exfalso. exact (Hbuf b eq_refl).
Qed.

Lemma background_of_other_type_refused_witness :
  run_create Sample.env Scenario.path_object_card =
    (inl (InvalidImageType
            "background must be a path or url or a file buffer, not <class 'pathlib.PosixPath'>"),
     start Scenario.path_object_card).
Proof.
  apply (background_of_other_type_refused Sample.env
           Scenario.path_object_card); intros x; discriminate.
Defined.

(** ** [Settings] *)

(** X15. [to_dict] never raises: it returns the three slots in the order of
    [__slots__], each with the value of its attribute, and calling
    [Settings] with that dict as keywords builds the same settings
    again. *)
Theorem to_dict_round_trip (s : Settings) :
  exists d,
    to_dict s = inr d /\
    map fst d = settings_slots /\
    dict_get d "background" = Some (settings_background s) /\
    dict_get d "bar_color" = Some (VStr (settings_bar_color s)) /\
    dict_get d "text_color" = Some (VStr (settings_text_color s)) /\
    settings_of_kwargs d = Some s.
Proof.
  destruct s as [bg bar text]. eexists.
  split; [reflexivity |]. repeat split.
Qed.

(** ** Where [InvalidImageUrl] comes from *)

Lemma resolve_background_url_error env st msg :
  fst (resolve_background env st) = inl (InvalidImageUrl msg) ->
  exists u status body,
    background (card st) = VStr u /\
    http_get env u = Some (status, body) /\ status <> 200 /\
    msg = "Invalid image url: " ++ u.
Proof.
  unfold resolve_background, buffer_check, _image, finally. run_monad.
  destruct (background (card st)) as [| z | s | p | b | im0]; run_monad;
    try discriminate.
  - destruct (String.prefix "http" s); run_monad.
    + destruct (http_get env s) as [[status body] |] eqn:Hget; run_monad;
        [| discriminate].
      destruct (Z.eqb_spec status 200) as [-> | Hne]; run_monad.
      * destruct (identify env body) as [[mode sz] |]; run_monad;
          discriminate.
      * intros H. injection H as Hmsg. subst msg.
        exists s, status, body. repeat split; assumption.
    + destruct (read_file env s) as [data |]; run_monad; [| discriminate].
      destruct (identify env data) as [[mode sz] |]; run_monad; discriminate.
  - destruct (buf_seekable b), (buf_readable b); run_monad; try discriminate.
    destruct (buf_mode b) as [m |]; run_monad; [| discriminate].
    destruct (String.eqb m "rb"); run_monad; [| discriminate].
    destruct (identify env (buf_data b)) as [[mode sz] |]; run_monad;
      discriminate.
Qed.

Lemma resolve_avatar_url_error env st msg :
  fst (resolve_avatar env st) = inl (InvalidImageUrl msg) ->
  exists u status body,
    avatar (card st) = VStr u /\
    http_get env u = Some (status, body) /\ status <> 200 /\
    msg = "Invalid image url: " ++ u.
Proof.
  unfold resolve_avatar, _image, finally. run_monad.
  destruct (avatar (card st)) as [| z | s | p | b | im0]; run_monad;
    try discriminate.
  destruct (String.prefix "http" s); run_monad.
  - destruct (http_get env s) as [[status body] |] eqn:Hget; run_monad;
      [| discriminate].
    destruct (Z.eqb_spec status 200) as [-> | Hne]; run_monad.
    + destruct (identify env body) as [[mode sz] |]; run_monad;
        discriminate.
    + intros H. injection H as Hmsg. subst msg.
      exists s, status, body. repeat split; assumption.
  - destruct (read_file env s) as [data |]; run_monad; [| discriminate].
    destruct (identify env data) as [[mode sz] |]; run_monad; discriminate.
Qed.

(** X16. [create] raises [InvalidImageUrl] only because the server
    answered the request for the background or for the avatar with a
    status other than 200, and the message names that URL. *)
Theorem invalid_image_url_names_the_source (env : Env) (c : RankCard)
    (msg : string)
    (Hfail : fst (run_create env c) = inl (InvalidImageUrl msg)) :
  exists u status body,
    (background c = VStr u \/ avatar c = VStr u) /\
    http_get env u = Some (status, body) /\ status <> 200 /\
    msg = "Invalid image url: " ++ u.
Proof.
  destruct (create_stages env c)
    as [(e & s1 & H1 & Hrun) | [(bg & s1 & e & s2 & H1 & H2 & Hrun)
                               | (bg & s1 & av & s2 & H1 & H2 & Hrun)]];
    rewrite Hrun in Hfail.
  - cbn [fst] in Hfail. inversion Hfail; subst.
    destruct (resolve_background_url_error env (start c) msg)
      as (u & status & body & Hb & Hx).
    { rewrite H1. reflexivity. }
    exists u, status, body. split; [left; exact Hb | exact Hx].
  - cbn [fst] in Hfail. inversion Hfail; subst.
    destruct (resolve_avatar_url_error env s1 msg)
      as (u & status & body & Ha & Hx).
    { rewrite H2. reflexivity. }
    destruct (resolve_background_outcome env (start c)) as (_ & Hav & _).
    rewrite H1 in Hav. cbn [snd start card] in Hav.
    exists u, status, body. split; [right; congruence | exact Hx].
  - exfalso.
    destruct (compose_errors env bg av s2) as [_ Hn].
    exact (Hn msg Hfail).
Qed.

Lemma invalid_image_url_names_the_source_witness :
  exists u status body,
    (background Scenario.gone_avatar_card = VStr u \/
     avatar Scenario.gone_avatar_card = VStr u) /\
    http_get Sample.env u = Some (status, body) /\ status <> 200 /\
    "Invalid image url: https://cdn.example/gone.png" =
      "Invalid image url: " ++ u.
Proof.
  apply (invalid_image_url_names_the_source Sample.env
           Scenario.gone_avatar_card).
  vm_compute. reflexivity.
Defined.
